(** * Sync-progress estimator of the Neuron wallet

    A shallow embedding of
    [packages/neuron-wallet/src/controllers/sync-api.ts]
    (class [SyncApiController]) and the properties of its sampling window,
    rate computation, status classification and estimation cache.

    Conventions of the embedding.

    - A TypeScript [number] is a value of [JS.number]: [NaN], the two
      infinities, or a finite value carried as an exact rational.  Sums,
      differences and quotients are exact: the rounding of IEEE doubles is
      modelled only where an integer becomes a number, in [parseInt].  The
      statements below leave a quotient symbolic or hold of the rounded
      quotient as well.  The two zeros are identified ([0 === -0] in
      JavaScript, and no denominator of this program can be a negative
      zero).
    - A JavaScript string is the list of its UTF-16 code units.
    - [Date.now()] and the [timestamp] field, which is only ever assigned
      from [Date.now()] or the literal [0], are integers ([Z]).
    - The class reads two pieces of ambient state, [Date.now()] and
      [NodeService.getInstance().ckb.node.url]; they are passed as an [Env].
      One synchronous run-to-completion segment observes one [Env].  The
      [async] method [#estimate] observes two: one before its [await]s and
      one when it resumes.
    - A rejected promise or a thrown exception is [None]. *)

From Stdlib Require Import ZArith QArith Qround String Ascii List Bool Lia Lqa.
Import ListNotations.
Open Scope Z_scope.

(* ================================================================= *)
(** ** JavaScript numbers *)

Module JS.

Inductive number : Type :=
| NaN
| PInf
| NInf
| Fin (q : Q).

Definition of_Z (z : Z) : number := Fin (inject_Z z).

(** Strict ordering of the rationals as a boolean. *)
Definition Qlt_bool (a b : Q) : bool := negb (Qle_bool b a).

(** [a + b] *)
Definition add (a b : number) : number :=
  match a, b with
  | NaN, _ | _, NaN => NaN
  | PInf, NInf | NInf, PInf => NaN
  | PInf, _ | _, PInf => PInf
  | NInf, _ | _, NInf => NInf
  | Fin x, Fin y => Fin (x + y)
  end.

(** [a - b] *)
Definition sub (a b : number) : number :=
  match a, b with
  | NaN, _ | _, NaN => NaN
  | PInf, PInf | NInf, NInf => NaN
  | PInf, _ | _, NInf => PInf
  | NInf, _ | _, PInf => NInf
  | Fin x, Fin y => Fin (x - y)
  end.

(** [a / b] *)
Definition div (a b : number) : number :=
  match a, b with
  | NaN, _ | _, NaN => NaN
  | (PInf | NInf), (PInf | NInf) => NaN
  | PInf, Fin y => if Qlt_bool y 0 then NInf else PInf
  | NInf, Fin y => if Qlt_bool y 0 then PInf else NInf
  | Fin _, (PInf | NInf) => Fin 0
  | Fin x, Fin y =>
      if Qeq_bool y 0 then
        if Qeq_bool x 0 then NaN
        else if Qlt_bool x 0 then NInf else PInf
      else Fin (x / y)
  end.

(** [a < b] *)
Definition lt (a b : number) : bool :=
  match a, b with
  | NaN, _ | _, NaN => false
  | PInf, _ | _, NInf => false
  | _, PInf | NInf, _ => true
  | Fin x, Fin y => Qlt_bool x y
  end.

(** [a <= b] *)
Definition le (a b : number) : bool :=
  match a, b with
  | NaN, _ | _, NaN => false
  | _, PInf | NInf, _ => true
  | PInf, _ | _, NInf => false
  | Fin x, Fin y => Qle_bool x y
  end.

(** [a > b] and [a >= b] *)
Definition gt (a b : number) : bool := lt b a.
Definition ge (a b : number) : bool := le b a.

(** [a === b] on numbers *)
Definition strict_eq (a b : number) : bool :=
  match a, b with
  | PInf, PInf | NInf, NInf => true
  | Fin x, Fin y => Qeq_bool x y
  | _, _ => false
  end.

(** [ToBoolean]: every number but [NaN] and zero is truthy. *)
Definition truthy (a : number) : bool :=
  match a with
  | NaN => false
  | PInf | NInf => true
  | Fin x => negb (Qeq_bool x 0)
  end.

(** [Math.round]: the nearest integer, ties towards +Infinity. *)
Definition Math_round (a : number) : number :=
  match a with
  | Fin x => of_Z (Qfloor (x + (1 # 2)))
  | other => other
  end.

(** [BigInt(a)] throws a [RangeError] unless [a] is an integer. *)
Definition BigInt (a : number) : option Z :=
  match a with
  | Fin x => if Qeq_bool (inject_Z (Qfloor x)) x then Some (Qfloor x) else None
  | _ => None
  end.

(** *** Strings and [parseInt(string)] with the radix left out *)

(** A JavaScript string is a sequence of UTF-16 code units. *)
Definition str : Type := list N.

(** A literal whose characters are all ASCII. *)
Fixpoint lit (s : string) : str :=
  match s with
  | EmptyString => []
  | String c rest => N_of_ascii c :: lit rest
  end.

(** The Number value of a mathematical integer: the nearest double, ties
    to the even significand, [Infinity] from 2^1024 on.  Below 2^53 every
    integer is a double. *)
Definition ofMathInt (z : Z) : number :=
  let a := Z.abs z in
  if a <? 9007199254740992 then of_Z z
  else
    let e := Z.log2 a - 52 in
    let ulp := 2 ^ e in
    let m := a / ulp in
    let r := a mod ulp in
    let half := ulp / 2 in
    let m' :=
      if r <? half then m
      else if half <? r then m + 1
      else if Z.even m then m else m + 1 in
    let v := m' * ulp in
    if 2 ^ 1024 <=? v then (if z <? 0 then NInf else PInf)
    else of_Z (Z.sgn z * v).

(** [StrWhiteSpaceChar]: TAB, LF, VT, FF, CR, SP, NBSP, U+1680,
    U+2000 to U+200A, LS, PS, U+202F, U+205F, U+3000 and U+FEFF. *)
Definition isWhiteSpace (c : N) : bool :=
  (((9 <=? c) && (c <=? 13)) || (c =? 32) || (c =? 160) || (c =? 5760)
   || ((8192 <=? c) && (c <=? 8202)) || (c =? 8232) || (c =? 8233)
   || (c =? 8239) || (c =? 8287) || (c =? 12288) || (c =? 65279))%N.

(** Value of [c] as a digit, in any radix up to 16. *)
Definition digitValue (c : N) : option Z :=
  let n := Z.of_N c in
  if (48 <=? n) && (n <=? 57) then Some (n - 48)
  else if (97 <=? n) && (n <=? 102) then Some (n - 87)
  else if (65 <=? n) && (n <=? 70) then Some (n - 55)
  else None.

Definition radixDigit (R : Z) (c : N) : option Z :=
  match digitValue c with
  | Some d => if d <? R then Some d else None
  | None => None
  end.

Fixpoint trimStart (s : str) : str :=
  match s with
  | c :: rest => if isWhiteSpace c then trimStart rest else s
  | [] => s
  end.

(** Reads the longest prefix of radix-[R] digits; [acc] is [None] until
    the first digit has been read. *)
Fixpoint parseDigits (R : Z) (s : str) (acc : option Z) : option Z :=
  match s with
  | c :: rest =>
      match radixDigit R c with
      | Some d =>
          parseDigits R rest
            (Some (match acc with Some a => a * R + d | None => d end))
      | None => acc
      end
  | [] => acc
  end.

(** 45 is [-], 43 is [+], 48 is [0], 120 and 88 are [x] and [X].  For more
    than 20 significant decimal digits the language lets an engine
    approximate; the correctly rounded value is taken here. *)
Definition parseInt (input : str) : number :=
  let s := trimStart input in
  let '(sign, s) :=
    match s with
    | c :: rest =>
        if (c =? 45)%N then (-1, rest)
        else if (c =? 43)%N then (1, rest)
        else (1, s)
    | [] => (1, s)
    end in
  let '(R, s) :=
    match s with
    | c0 :: c1 :: rest =>
        if ((c0 =? 48) && ((c1 =? 120) || (c1 =? 88)))%N then (16, rest)
        else (10, s)
    | _ => (10, s)
    end in
  match parseDigits R s None with
  | None => NaN
  | Some mathInt => ofMathInt (sign * mathInt)
  end.

End JS.

(* ================================================================= *)
(** ** The controller *)

Module SyncApi.

Definition TEN_MINS : Z := 600000.
Definition MAX_TIP_BLOCK_DELAY : Z := 180000.

Inductive SyncStatus : Type :=
| SyncNotStart
| SyncPending
| Syncing
| SyncCompleted.

Record SyncState : Type := {
  nodeUrl : string;
  timestamp : Z;
  indexerTipNumber : JS.number;
  cacheTipNumber : JS.number;
  bestKnownBlockNumber : JS.number;
  bestKnownBlockTimestamp : JS.number;
  indexRate : option JS.number;
  cacheRate : option JS.number;
  estimate : option JS.number;
  status : SyncStatus
}.

(** The private fields [#estimates] and [#cachedEstimation]. *)
Record Controller : Type := {
  estimates : list SyncState;
  cachedEstimation : option SyncState
}.

Definition sampleTime : Z := 60000.
Definition indexerTipDiff : Z := 50.
Definition cacheDiff : Z := 5.
Definition bestKnownBlockNumberDiff : Z := 50.

(** A freshly constructed controller. *)
Definition initial : Controller :=
  {| estimates := []; cachedEstimation := None |}.

(** Ambient state: [now] is [Date.now()], [currentNodeUrl] is what
    [#getCurrentNodeUrl] returns. *)
Record Env : Type := {
  now : Z;
  currentNodeUrl : string
}.

(** The payload of a [cache-tip-block-updated] event, each field as the
    string [parseInt] converts its argument to. *)
Module States.
Record t : Type := {
  indexerTipNumber : JS.str;
  cacheTipNumber : JS.str
}.
End States.

(** A tip header as [RpcService.getTipHeader] resolves it, each field
    already passed through [Number(...)]. *)
Module Header.
Record t : Type := {
  number : JS.number;
  timestamp : JS.number
}.
End Header.

(** Outcomes of the three remote calls one tick makes; [None] is a
    rejected promise.  [syncState] holds the two fields of the
    [sync_state] answer after [parseInt(_, 16)] and unary [+]. *)
Record Rpc : Type := {
  tipHeader : option Header.t;
  syncState : option (JS.number * JS.number);
  fallbackTipHeader : option Header.t
}.

(** What a handler hands to its collaborators. *)
Inductive Effect : Type :=
| SetNextBlock (n : Z)
| Publish (s : SyncState).

Definition getEstimatesByCurrentNode (env : Env) (ests : list SyncState)
  : list SyncState :=
  let nodeUrl_ := currentNodeUrl env in
  filter
    (fun state =>
       String.eqb (nodeUrl state) nodeUrl_
       && (now env - timestamp state <=? sampleTime))
    ests.

Definition calculateAvgIndexRate (env : Env) (ests : list SyncState)
    (currentindexerTipNumber : JS.number) (timestamp_ : Z)
  : option JS.number :=
  match nth_error (getEstimatesByCurrentNode env ests) 0 with
  | None => None
  | Some firstState =>
      let advancedindexerTipNumber :=
        JS.sub currentindexerTipNumber (indexerTipNumber firstState) in
      if JS.lt advancedindexerTipNumber (JS.of_Z indexerTipDiff) then None
      else
        let lastedTime := timestamp_ - timestamp firstState in
        let indexRate_ :=
          JS.div advancedindexerTipNumber (JS.of_Z lastedTime) in
        Some indexRate_
  end.

Definition foundBestKnownBlockNumber (env : Env) (ests : list SyncState)
    (bestKnownBlockNumber_ : JS.number) : bool :=
  let estimates_ := getEstimatesByCurrentNode env ests in
  match nth_error estimates_ 0 with
  | None => false
  | Some lastEstimate =>
      if JS.ge
           (JS.sub bestKnownBlockNumber_ (bestKnownBlockNumber lastEstimate))
           (JS.of_Z bestKnownBlockNumberDiff)
      then false
      else true
  end.

(** Returns the sample together with the new value of [#estimates]. *)
Definition updateEstimates (env : Env) (ests : list SyncState)
    (newSyncState : SyncState) : SyncState * list SyncState :=
  let currentTime := now env in
  let ests' :=
    filter (fun state => currentTime - timestamp state <=? sampleTime)
      (getEstimatesByCurrentNode env ests) in
  (newSyncState, ests' ++ [newSyncState]).

Definition fetchBestKnownBlockInfo (rpc : Rpc)
  : option (JS.number * JS.number) :=
  match syncState rpc with
  | Some info => Some info
  | None =>
      match fallbackTipHeader rpc with
      | Some tipHeader_ =>
          Some (Header.number tipHeader_, Header.timestamp tipHeader_)
      | None => None
      end
  end.

Definition setStatus (s : SyncState) (st : SyncStatus) : SyncState :=
  {| nodeUrl := nodeUrl s;
     timestamp := timestamp s;
     indexerTipNumber := indexerTipNumber s;
     cacheTipNumber := cacheTipNumber s;
     bestKnownBlockNumber := bestKnownBlockNumber s;
     bestKnownBlockTimestamp := bestKnownBlockTimestamp s;
     indexRate := indexRate s;
     cacheRate := cacheRate s;
     estimate := estimate s;
     status := st |}.

(** [Object.assign(s, { indexRate, estimate })] *)
Definition assignRate (s : SyncState) (indexRate_ estimate_ : JS.number)
  : SyncState :=
  {| nodeUrl := nodeUrl s;
     timestamp := timestamp s;
     indexerTipNumber := indexerTipNumber s;
     cacheTipNumber := cacheTipNumber s;
     bestKnownBlockNumber := bestKnownBlockNumber s;
     bestKnownBlockTimestamp := bestKnownBlockTimestamp s;
     indexRate := Some indexRate_;
     cacheRate := cacheRate s;
     estimate := Some estimate_;
     status := status s |}.

(** [#estimate].  [env0] is the ambient state when the method starts,
    [env1] the ambient state when it resumes after its last [await], and
    [ests] the value of [#estimates] at that moment.  The trailing
    underscore keeps the method apart from the field [estimate]. *)
Definition estimate_ (env0 : Env) (states : States.t) (rpc : Rpc)
    (env1 : Env) (ests : list SyncState)
  : option (SyncState * list SyncState) :=
  let indexerTipNumber_ := JS.parseInt (States.indexerTipNumber states) in
  let cacheTipNumber_ := JS.parseInt (States.cacheTipNumber states) in
  let currentTimestamp := now env0 in
  let nodeUrl_ := currentNodeUrl env0 in
  match tipHeader rpc with
  | None => None
  | Some tipHeader_ =>
  match fetchBestKnownBlockInfo rpc with
  | None => None
  | Some (bestKnownBlockNumber_, bestKnownBlockTimestamp_) =>
      let foundBestKnownBlockNumber_ :=
        foundBestKnownBlockNumber env1 ests bestKnownBlockNumber_ in
      let remainingBlocksToCache :=
        JS.sub bestKnownBlockNumber_ cacheTipNumber_ in
      let remainingBlocksToIndex :=
        JS.sub bestKnownBlockNumber_ indexerTipNumber_ in
      let newSyncState :=
        {| nodeUrl := nodeUrl_;
           timestamp := currentTimestamp;
           indexerTipNumber := indexerTipNumber_;
           cacheTipNumber := cacheTipNumber_;
           bestKnownBlockNumber := bestKnownBlockNumber_;
           bestKnownBlockTimestamp := bestKnownBlockTimestamp_;
           indexRate := None;
           cacheRate := None;
           estimate := None;
           status := Syncing |} in
      let newSyncState :=
        if foundBestKnownBlockNumber_ then
          let allCached :=
            JS.lt remainingBlocksToCache (JS.of_Z cacheDiff) in
          let tipBlockTimestamp := Header.timestamp tipHeader_ in
          let newSyncState :=
            if allCached then
              let newSyncState :=
                if JS.ge
                     (JS.add tipBlockTimestamp (JS.of_Z MAX_TIP_BLOCK_DELAY))
                     (JS.of_Z (timestamp newSyncState))
                then setStatus newSyncState SyncCompleted
                else newSyncState in
              if JS.lt
                   (JS.add tipBlockTimestamp (JS.of_Z TEN_MINS))
                   (JS.of_Z (timestamp newSyncState))
              then setStatus newSyncState SyncPending
              else newSyncState
            else newSyncState in
          match
            calculateAvgIndexRate env1 ests indexerTipNumber_ currentTimestamp
          with
          | Some indexRate_ =>
              if negb allCached && JS.truthy indexRate_ then
                let estimate' :=
                  JS.Math_round (JS.div remainingBlocksToIndex indexRate_) in
                assignRate newSyncState indexRate_ estimate'
              else newSyncState
          | None => newSyncState
          end
        else newSyncState in
      Some (updateEstimates env1 ests newSyncState)
  end
  end.

(** [async getSyncStatus()]; [None] would be the [TypeError] of reading
    [status] off [undefined]. *)
Definition getSyncStatus (c : Controller) : option SyncStatus :=
  if (length (estimates c) =? 0)%nat then Some SyncNotStart
  else
    match nth_error (estimates c) (length (estimates c) - 1) with
    | Some lastEstimate => Some (status lastEstimate)
    | None => None
    end.

Definition withCache (c : Controller) (v : option SyncState) : Controller :=
  {| estimates := estimates c; cachedEstimation := v |}.

(** [getCachedEstimation()]: the returned value and the controller
    afterwards.  An index outside the array reads [undefined]. *)
Definition getCachedEstimation (env : Env) (c : Controller)
  : option SyncState * Controller :=
  let len := length (estimates c) in
  let lastEstimation := nth_error (estimates c) (len - 1) in
  match cachedEstimation c with
  | None => (lastEstimation, withCache c lastEstimation)
  | Some cached =>
      if (1 <? len)%nat
         && match nth_error (estimates c) (len - 2), lastEstimation with
            | Some previous, Some latest =>
                JS.strict_eq (cacheTipNumber previous) (cacheTipNumber latest)
            | _, _ => false
            end
      then (lastEstimation, withCache c lastEstimation)
      else
        let nodeUrl_ := currentNodeUrl env in
        if negb (String.eqb (nodeUrl cached) nodeUrl_)
           || (timestamp cached + sampleTime <=? now env)
        then (lastEstimation, withCache c lastEstimation)
        else (Some cached, c)
  end.

(** The sample the network-change subscriber builds. *)
Definition bootstrap (nodeUrl_ : string) : SyncState :=
  {| nodeUrl := nodeUrl_;
     timestamp := 0;
     indexerTipNumber := JS.of_Z 0;
     cacheTipNumber := JS.of_Z 0;
     bestKnownBlockNumber := JS.of_Z 0;
     bestKnownBlockTimestamp := JS.of_Z 0;
     indexRate := None;
     cacheRate := None;
     estimate := None;
     status := SyncNotStart |}.

(** Listener of [cache-tip-block-updated].  [BigInt] throws after
    [#estimate] has already stored the sample. *)
Definition onCacheTipBlockUpdated (env0 : Env) (states : States.t)
    (rpc : Rpc) (env1 : Env) (c : Controller) : Controller * list Effect :=
  match estimate_ env0 states rpc env1 (estimates c) with
  | None => (c, [])
  | Some (newSyncState, ests') =>
      let c' :=
        {| estimates := ests'; cachedEstimation := cachedEstimation c |} in
      match JS.BigInt (cacheTipNumber newSyncState) with
      | None => (c', [])
      | Some n => (c', [SetNextBlock n; Publish newSyncState])
      end
  end.

(** Subscriber of the debounced [CurrentNetworkIDSubject]. *)
Definition onCurrentNetworkIDChanged (env : Env) (c : Controller)
  : Controller * list Effect :=
  let nodeUrl_ := currentNodeUrl env in
  let newSyncState := bootstrap nodeUrl_ in
  ({| estimates := [newSyncState]; cachedEstimation := cachedEstimation c |},
   [Publish newSyncState]).

(** The two kinds of event [#registerHandlers] subscribes to. *)
Inductive Event : Type :=
| CacheTipBlockUpdated (env0 : Env) (states : States.t) (rpc : Rpc)
    (env1 : Env)
| CurrentNetworkIDChanged (env : Env).

Definition handle (c : Controller) (e : Event) : Controller :=
  match e with
  | CacheTipBlockUpdated env0 states rpc env1 =>
      fst (onCacheTipBlockUpdated env0 states rpc env1 c)
  | CurrentNetworkIDChanged env => fst (onCurrentNetworkIDChanged env c)
  end.

(** The controller after a sequence of events, handled one at a time. *)
Definition run (events : list Event) : Controller :=
  fold_left handle events initial.

End SyncApi.

Import SyncApi.

(* ================================================================= *)
(** ** Vocabulary of the specification *)

Module Spec.

(** A sample is retained for the active node at [env]: it belongs to the
    active node and is at most [sampleTime] old. *)
Definition fresh (env : Env) (s : SyncState) : Prop :=
  nodeUrl s = currentNodeUrl env /\ now env - timestamp s <= sampleTime.

(** [first] is the oldest sample of [ests] retained at [env]. *)
Definition oldestFresh (env : Env) (ests : list SyncState)
    (first : SyncState) : Prop :=
  exists pre post,
    ests = pre ++ first :: post
    /\ Forall (fun s => ~ fresh env s) pre
    /\ fresh env first.

(** [prev] is the most recent sample of [ests] retained at [env]. *)
Definition newestFresh (env : Env) (ests : list SyncState)
    (prev : SyncState) : Prop :=
  exists pre post,
    ests = pre ++ prev :: post
    /\ fresh env prev
    /\ Forall (fun s => ~ fresh env s) post.

(** The intermediate quantities of one tick. *)
Definition indexerTip (states : States.t) : JS.number :=
  JS.parseInt (States.indexerTipNumber states).

Definition cacheTip (states : States.t) : JS.number :=
  JS.parseInt (States.cacheTipNumber states).

Definition allCached (bestKnownTip : JS.number) (states : States.t) : bool :=
  JS.lt (JS.sub bestKnownTip (cacheTip states)) (JS.of_Z 5).

Definition tipAge (env0 : Env) (hdr : Header.t) : JS.number :=
  JS.sub (JS.of_Z (now env0)) (Header.timestamp hdr).

(** The newest sample of the window, if any. *)
Definition newest (ests : list SyncState) : option SyncState :=
  match rev ests with
  | [] => None
  | latest :: _ => Some latest
  end.

(** [prev] is the most recent retained sample and the best-known tip moved
    by less than 50 blocks since: the stability of the best-known tip as
    the specification words it. *)
Definition bestKnownTipStable (env : Env) (ests : list SyncState)
    (bestKnownTip : JS.number) : Prop :=
  exists prev,
    newestFresh env ests prev
    /\ JS.lt (JS.sub bestKnownTip (bestKnownBlockNumber prev)) (JS.of_Z 50)
       = true.




(** A few concrete values used by the examples below. *)
Definition sample (url : string) (t i c b : Z) : SyncState :=
  {| nodeUrl := url;
     timestamp := t;
     indexerTipNumber := JS.of_Z i;
     cacheTipNumber := JS.of_Z c;
     bestKnownBlockNumber := JS.of_Z b;
     bestKnownBlockTimestamp := JS.of_Z 0;
     indexRate := None;
     cacheRate := None;
     estimate := None;
     status := Syncing |}.

Definition at_ (t : Z) (url : string) : Env :=
  {| now := t; currentNodeUrl := url |}.

Definition payload (i c : string) : States.t :=
  {| States.indexerTipNumber := JS.lit i; States.cacheTipNumber := JS.lit c |}.

(** All three remote calls answer: the node's tip is at height [h] with
    block time [t], and [sync_state] reports the same. *)
Definition answers (h t : Z) : Rpc :=
  {| tipHeader :=
       Some {| Header.number := JS.of_Z h; Header.timestamp := JS.of_Z t |};
     syncState := Some (JS.of_Z h, JS.of_Z t);
     fallbackTipHeader := None |}.

End Spec.

(* ================================================================= *)
(** ** Proof automation *)

(** Splits the conjunctions and existentials among the hypotheses. *)
Ltac break_hyps :=
  repeat match goal with
         | H : _ /\ _ |- _ => destruct H
         | H : exists _, _ |- _ => destruct H
         end.

(** Closes a case of a tick by contradiction or by computation. *)
Ltac solve_case :=
  intros; break_hyps; try congruence; repeat split; try congruence.

(* ================================================================= *)
(** ** Worked examples *)

Example parseInt_decimal : JS.parseInt (JS.lit "  -42") = JS.of_Z (-42).
Proof. reflexivity. Qed.
Example parseInt_prefix : JS.parseInt (JS.lit "12px") = JS.of_Z 12.
Proof. reflexivity. Qed.
Example parseInt_fraction : JS.parseInt (JS.lit "3.7") = JS.of_Z 3.
Proof. reflexivity. Qed.
Example parseInt_hex : JS.parseInt (JS.lit "0x1f") = JS.of_Z 31.
Proof. reflexivity. Qed.
Example parseInt_letters : JS.parseInt (JS.lit "abc") = JS.NaN.
Proof. reflexivity. Qed.
Example parseInt_empty : JS.parseInt [] = JS.NaN.
Proof. reflexivity. Qed.
Example parseInt_nbsp : JS.parseInt (160%N :: JS.lit "12") = JS.of_Z 12.
Proof. reflexivity. Qed.
Example parseInt_bom : JS.parseInt (65279%N :: 8195%N :: JS.lit "7") = JS.of_Z 7.
Proof. reflexivity. Qed.
Example parseInt_above_2_53 :
  JS.parseInt (JS.lit "9007199254740993") = JS.of_Z 9007199254740992
  /\ JS.parseInt (JS.lit "9007199254740995") = JS.of_Z 9007199254740996
  /\ JS.parseInt (JS.lit "-9007199254740995") = JS.of_Z (-9007199254740996).
Proof. repeat split; vm_compute; reflexivity. Qed.

(** The scenario of the specification: a first sample at time 0 with indexer
    tip 100 and best-known tip 1000, then a tick ten seconds later with
    indexer tip 160, cache tip 95 and best-known tip 1005. *)
Example scenario_rate_and_estimate :
  exists s ests',
    estimate_ (Spec.at_ 10000 "n") (Spec.payload "160" "95")
      (Spec.answers 1005 9000) (Spec.at_ 10000 "n")
      [Spec.sample "n" 0 100 90 1000] = Some (s, ests')
    /\ indexRate s = Some (JS.div (JS.of_Z 60) (JS.of_Z 10000))
    /\ estimate s = Some (JS.of_Z 140833)
    /\ status s = Syncing.
Proof. eexists; eexists; repeat split. Qed.

Example scenario_empty_window : getSyncStatus initial = Some SyncNotStart.
Proof. reflexivity. Qed.

Example scenario_completed :
  exists s ests',
    estimate_ (Spec.at_ 100000 "n") (Spec.payload "1005" "1003")
      (Spec.answers 1005 40000) (Spec.at_ 100000 "n")
      [Spec.sample "n" 90000 100 90 1000] = Some (s, ests')
    /\ status s = SyncCompleted.
Proof. eexists; eexists; repeat split. Qed.

Example scenario_pending :
  exists s ests',
    estimate_ (Spec.at_ 800000 "n") (Spec.payload "1005" "1003")
      (Spec.answers 1005 100000) (Spec.at_ 800000 "n")
      [Spec.sample "n" 790000 100 90 1000] = Some (s, ests')
    /\ status s = SyncPending.
Proof. eexists; eexists; repeat split. Qed.

(* ================================================================= *)
(** ** Arithmetic of JavaScript numbers *)

Section NumberFacts.

Lemma Qlt_bool_iff (a b : Q) : JS.Qlt_bool a b = true <-> (a < b)%Q.
Proof.
  unfold JS.Qlt_bool. rewrite negb_true_iff.
  split; intros H.
  - apply Qnot_le_lt. intros L. apply Qle_bool_iff in L. congruence.
  - destruct (Qle_bool b a) eqn:E; [|reflexivity].
    apply Qle_bool_iff in E. exfalso. revert E. apply Qlt_not_le, H.
Qed.

Lemma Qlt_bool_false_iff (a b : Q) : JS.Qlt_bool a b = false <-> (b <= a)%Q.
Proof.
  unfold JS.Qlt_bool. rewrite negb_false_iff. apply Qle_bool_iff.
Qed.

(** [now - t <= k] and [t + k >= now] agree for every number [t]. *)
Lemma le_sub_iff_ge_add (t : JS.number) (n k : Z) :
  JS.le (JS.sub (JS.of_Z n) t) (JS.of_Z k)
  = JS.ge (JS.add t (JS.of_Z k)) (JS.of_Z n).
Proof.
  destruct t as [| | |q]; try reflexivity.
  unfold JS.ge, JS.of_Z; simpl.
  generalize (inject_Z n) (inject_Z k); intros a b.
  apply eq_true_iff_eq. rewrite !Qle_bool_iff. split; intros H; lra.
Qed.

(** [now - t > k] and [t + k < now] agree for every number [t]. *)
Lemma gt_sub_iff_lt_add (t : JS.number) (n k : Z) :
  JS.gt (JS.sub (JS.of_Z n) t) (JS.of_Z k)
  = JS.lt (JS.add t (JS.of_Z k)) (JS.of_Z n).
Proof.
  destruct t as [| | |q]; try reflexivity.
  unfold JS.gt, JS.of_Z; simpl.
  generalize (inject_Z n) (inject_Z k); intros a b.
  apply eq_true_iff_eq. rewrite !Qlt_bool_iff. split; intros H; lra.
Qed.

(** [<=] and [>] exclude each other. *)
Lemma le_gt_exclusive (a b : JS.number) :
  JS.le a b = true -> JS.gt a b = true -> False.
Proof.
  destruct a as [| | |x], b as [| | |y]; simpl; try discriminate.
  unfold JS.gt; simpl. rewrite Qle_bool_iff, Qlt_bool_iff. lra.
Qed.

(** Order is monotone in the integer bound. *)
Lemma le_of_Z_mono (a : JS.number) (j k : Z) :
  j <= k -> JS.le a (JS.of_Z j) = true -> JS.le a (JS.of_Z k) = true.
Proof.
  intros Hjk. destruct a as [| | |x]; simpl; try easy.
  rewrite !Qle_bool_iff. intros H.
  apply Qle_trans with (inject_Z j); [exact H|].
  rewrite <- Zle_Qle. exact Hjk.
Qed.

End NumberFacts.

(* ================================================================= *)
(** ** The per-node filtered view *)

Section FilteredView.

Variable env : Env.

Lemma fresh_iff (s : SyncState) :
  String.eqb (nodeUrl s) (currentNodeUrl env)
  && (now env - timestamp s <=? sampleTime) = true
  <-> Spec.fresh env s.
Proof.
  unfold Spec.fresh.
  rewrite andb_true_iff, String.eqb_eq, Z.leb_le. reflexivity.
Qed.

Lemma In_view (ests : list SyncState) (s : SyncState) :
  In s (getEstimatesByCurrentNode env ests) <-> In s ests /\ Spec.fresh env s.
Proof.
  unfold getEstimatesByCurrentNode. rewrite filter_In, fresh_iff.
  reflexivity.
Qed.

(** Samples that are not retained do not show in the view. *)
Lemma view_skip (pre rest : list SyncState) :
  Forall (fun s => ~ Spec.fresh env s) pre ->
  getEstimatesByCurrentNode env (pre ++ rest)
  = getEstimatesByCurrentNode env rest.
Proof.
  induction 1 as [|s pre Hs _ IH]; [reflexivity|].
  unfold getEstimatesByCurrentNode in *. simpl.
  destruct (_ && _) eqn:E; [|exact IH].
  apply fresh_iff in E. contradiction.
Qed.

Lemma view_cons_fresh (s : SyncState) (rest : list SyncState) :
  Spec.fresh env s ->
  getEstimatesByCurrentNode env (s :: rest)
  = s :: getEstimatesByCurrentNode env rest.
Proof.
  intros Hs. apply fresh_iff in Hs.
  unfold getEstimatesByCurrentNode. simpl. rewrite Hs. reflexivity.
Qed.

(** The head of the view is the oldest retained sample. *)
Lemma view_head_oldest (ests : list SyncState) (first : SyncState) :
  Spec.oldestFresh env ests first ->
  nth_error (getEstimatesByCurrentNode env ests) 0 = Some first.
Proof.
  intros (pre & post & -> & Hpre & Hfirst).
  rewrite view_skip by assumption.
  rewrite view_cons_fresh by assumption. reflexivity.
Qed.

Lemma view_head_none (ests : list SyncState) :
  (forall s, In s ests -> ~ Spec.fresh env s) ->
  nth_error (getEstimatesByCurrentNode env ests) 0 = None.
Proof.
  intros Hnone.
  destruct (getEstimatesByCurrentNode env ests) as [|s view] eqn:E;
    [reflexivity|].
  assert (Hin : In s (getEstimatesByCurrentNode env ests))
    by (rewrite E; left; reflexivity).
  apply In_view in Hin. destruct Hin as [Hin Hs].
  exfalso. exact (Hnone s Hin Hs).
Qed.

(** Conversely, a non-empty view starts at the oldest retained sample. *)
Lemma view_head_inv (ests : list SyncState) (first : SyncState) :
  nth_error (getEstimatesByCurrentNode env ests) 0 = Some first ->
  Spec.oldestFresh env ests first.
Proof.
  induction ests as [|s ests IH]; [discriminate|].
  unfold getEstimatesByCurrentNode. simpl.
  destruct (_ && _) eqn:E.
  - simpl. intros [= <-]. apply fresh_iff in E.
    exists [], ests. repeat split; [constructor | apply E | apply E].
  - intros H. destruct (IH H) as (pre & post & -> & Hpre & Hfirst).
    exists (s :: pre), post. repeat split; try apply Hfirst.
    constructor; [|exact Hpre].
    intros Hs. apply fresh_iff in Hs. congruence.
Qed.

End FilteredView.

(* ================================================================= *)
(** ** Shape of a push and of a tick *)

Lemma updateEstimates_kept (env : Env) (ests : list SyncState) (s : SyncState) :
  exists kept,
    updateEstimates env ests s = (s, kept ++ [s])
    /\ Forall (Spec.fresh env) kept
    /\ (forall x, In x kept <-> In x ests /\ Spec.fresh env x).
Proof.
  unfold updateEstimates. cbv zeta.
  eexists. split; [reflexivity|]. split.
  - apply Forall_forall. intros x Hx.
    apply filter_In in Hx. destruct Hx as [Hx _].
    apply In_view in Hx. exact (proj2 Hx).
  - intros x. rewrite filter_In, In_view. split.
    + intros [H _]. exact H.
    + intros [Hin Hfresh]. split; [split; assumption|].
      apply Z.leb_le. exact (proj2 Hfresh).
Qed.

Section TickShape.

Variables (env0 env1 : Env) (states : States.t) (rpc : Rpc).
Variable ests : list SyncState.

(** A tick fails only when a remote call does; otherwise it pushes a
    sample that records its inputs. *)
Lemma estimate_total (hdr : Header.t) (info : JS.number * JS.number) :
  tipHeader rpc = Some hdr ->
  fetchBestKnownBlockInfo rpc = Some info ->
  exists s kept,
    estimate_ env0 states rpc env1 ests = Some (s, kept ++ [s])
    /\ Forall (Spec.fresh env1) kept
    /\ nodeUrl s = currentNodeUrl env0
    /\ timestamp s = now env0
    /\ indexerTipNumber s = Spec.indexerTip states
    /\ cacheTipNumber s = Spec.cacheTip states
    /\ bestKnownBlockNumber s = fst info.
Proof.
  intros Htip Hinfo. destruct info as [best bestTs].
  unfold estimate_. rewrite Htip, Hinfo. cbv zeta.
  match goal with
  | |- exists s kept, Some (updateEstimates _ _ ?new) = _ /\ _ =>
      destruct (updateEstimates_kept env1 ests new)
        as (kept & Heq & Hfresh & _);
      exists new, kept; rewrite Heq; clear Heq;
      split; [reflexivity|]; split; [exact Hfresh|]
  end.
  destruct (foundBestKnownBlockNumber env1 ests best);
    [|repeat split].
  destruct (JS.lt _ (JS.of_Z cacheDiff));
    repeat match goal with
           | |- context [if ?b then _ else _] => destruct b
           | |- context [match ?o with Some _ => _ | None => _ end] =>
               destruct o
           end; repeat split.
Qed.

End TickShape.

(* ================================================================= *)
(** ** Status classification *)

(** C1 at a concrete tick.  Two samples are retained, with best-known
    tips 1000 and 1100.  The tick reports best-known tip 1105 and cache tip
    1103, and the node's tip is 100 ms old: the tip is stable (it moved by
    5 < 50 blocks since the previous sample), the cache has caught up and
    [tipAge <= 180000], so the status should be [SyncCompleted].  The code
    compares with the first retained sample (1105 - 1000 >= 50), skips the
    classification and leaves [Syncing]. *)
Theorem status_not_completed_on_stable_tip :
  Spec.bestKnownTipStable (Spec.at_ 2000 "n")
    [Spec.sample "n" 1000 0 0 1000; Spec.sample "n" 1500 0 0 1100]
    (JS.of_Z 1105)
  /\ Spec.allCached (JS.of_Z 1105) (Spec.payload "1105" "1103") = true
  /\ JS.le
       (Spec.tipAge (Spec.at_ 2000 "n")
          {| Header.number := JS.of_Z 1105;
             Header.timestamp := JS.of_Z 1900 |})
       (JS.of_Z 180000) = true
  /\ exists s ests',
       estimate_ (Spec.at_ 2000 "n") (Spec.payload "1105" "1103")
         (Spec.answers 1105 1900) (Spec.at_ 2000 "n")
         [Spec.sample "n" 1000 0 0 1000; Spec.sample "n" 1500 0 0 1100]
       = Some (s, ests')
       /\ status s = Syncing.
Proof.
  split; [|split; [reflexivity | split; [reflexivity|]]].
  - exists (Spec.sample "n" 1500 0 0 1100). split; [|reflexivity].
    exists [Spec.sample "n" 1000 0 0 1000], [].
    repeat split; [unfold sampleTime; simpl; lia | constructor].
  - eexists. eexists. split; reflexivity.
Qed.

(* ================================================================= *)
(** ** Rate calculator *)

(** What [#calculateAvgIndexRate] returns once the oldest retained sample is
    known. *)
Lemma calculateAvgIndexRate_first
    (env : Env) (ests : list SyncState) (first : SyncState)
    (tip : JS.number) (t : Z) :
  Spec.oldestFresh env ests first ->
  calculateAvgIndexRate env ests tip t
  = if JS.lt (JS.sub tip (indexerTipNumber first)) (JS.of_Z 50) then None
    else Some (JS.div (JS.sub tip (indexerTipNumber first))
                 (JS.of_Z (t - timestamp first))).
Proof.
  intros Hfirst. unfold calculateAvgIndexRate.
  rewrite (view_head_oldest _ _ _ Hfirst). reflexivity.
Qed.

(** C2, as the code has it.  The average index rate is [undefined] when the
    window holds no retained sample for the active node or when
    [advanced = currentIndexerTip - first.indexerTip < 50]; in every other
    case it is [advanced / elapsed] with [elapsed = now - first.timestamp],
    whatever the sign of [elapsed]. *)
Theorem average_index_rate
    (env : Env) (ests : list SyncState) (tip : JS.number) (t : Z) :
  ((forall s, In s ests -> ~ Spec.fresh env s) ->
   calculateAvgIndexRate env ests tip t = None)
  /\ (forall first,
        Spec.oldestFresh env ests first ->
        JS.lt (JS.sub tip (indexerTipNumber first)) (JS.of_Z 50) = true ->
        calculateAvgIndexRate env ests tip t = None)
  /\ (forall first,
        Spec.oldestFresh env ests first ->
        JS.lt (JS.sub tip (indexerTipNumber first)) (JS.of_Z 50) = false ->
        calculateAvgIndexRate env ests tip t
        = Some (JS.div (JS.sub tip (indexerTipNumber first))
                  (JS.of_Z (t - timestamp first)))).
Proof.
  split; [|split].
  - intros Hnone. unfold calculateAvgIndexRate.
    rewrite (view_head_none _ _ Hnone). reflexivity.
  - intros first Hfirst Hslow.
    rewrite (calculateAvgIndexRate_first _ _ _ _ _ Hfirst), Hslow.
    reflexivity.
  - intros first Hfirst Hfast.
    rewrite (calculateAvgIndexRate_first _ _ _ _ _ Hfirst), Hfast.
    reflexivity.
Qed.

Lemma oldestFresh_head (env : Env) (s : SyncState) (rest : list SyncState) :
  Spec.fresh env s -> Spec.oldestFresh env (s :: rest) s.
Proof.
  intros Hs. exists [], rest. repeat split; [constructor | apply Hs | apply Hs].
Qed.

Lemma average_index_rate_witness :
  calculateAvgIndexRate (Spec.at_ 10000 "n") [Spec.sample "n" 0 100 90 1000]
    (JS.of_Z 160) 10000
  = Some (JS.div (JS.of_Z 60) (JS.of_Z 10000))
  /\ calculateAvgIndexRate (Spec.at_ 10000 "n") [Spec.sample "n" 0 100 90 1000]
       (JS.of_Z 120) 10000 = None
  /\ calculateAvgIndexRate (Spec.at_ 70000 "n") [Spec.sample "n" 0 100 90 1000]
       (JS.of_Z 160) 70000 = None.
Proof.
  assert (Hfresh : Spec.fresh (Spec.at_ 10000 "n")
                     (Spec.sample "n" 0 100 90 1000)).
  { split; [reflexivity | unfold sampleTime; simpl; lia]. }
  split; [|split].
  - destruct (average_index_rate (Spec.at_ 10000 "n")
                [Spec.sample "n" 0 100 90 1000] (JS.of_Z 160) 10000)
      as (_ & _ & Hrate).
    apply (Hrate _ (oldestFresh_head _ _ _ Hfresh)). reflexivity.
  - destruct (average_index_rate (Spec.at_ 10000 "n")
                [Spec.sample "n" 0 100 90 1000] (JS.of_Z 120) 10000)
      as (_ & Hslow & _).
    apply (Hslow _ (oldestFresh_head _ _ _ Hfresh)). reflexivity.
  - destruct (average_index_rate (Spec.at_ 70000 "n")
                [Spec.sample "n" 0 100 90 1000] (JS.of_Z 160) 70000)
      as (Hnone & _ & _).
    apply Hnone. intros s [<- | []] [_ Hage].
    unfold sampleTime in Hage; simpl in Hage; lia.
Defined.

(** C2, as stated, fails: with [elapsed = 0] the rate is not [undefined] but
    [Infinity], and with [elapsed < 0] it is a negative number. *)
Lemma average_index_rate_elapsed_not_guarded :
  Spec.oldestFresh (Spec.at_ 1000 "n") [Spec.sample "n" 1000 0 0 0]
    (Spec.sample "n" 1000 0 0 0)
  /\ 1000 - timestamp (Spec.sample "n" 1000 0 0 0) <= 0
  /\ calculateAvgIndexRate (Spec.at_ 1000 "n") [Spec.sample "n" 1000 0 0 0]
       (JS.of_Z 100) 1000 = Some JS.PInf
  /\ 900 - timestamp (Spec.sample "n" 1000 0 0 0) <= 0
  /\ calculateAvgIndexRate (Spec.at_ 1000 "n") [Spec.sample "n" 1000 0 0 0]
       (JS.of_Z 100) 900 = Some (JS.div (JS.of_Z 100) (JS.of_Z (-100))).
Proof.
  split; [|repeat split; simpl; lia].
  apply oldestFresh_head. split; [reflexivity | unfold sampleTime; simpl; lia].
Qed.

(* ================================================================= *)
(** ** Stability of the best-known tip *)

(** X17.  What [#foundBestKnownBlockNumber] decides: it answers [true]
    exactly when the window retains a sample for the active node and the
    reported best-known block is not 50 or more above the best-known block
    of the oldest retained sample. *)
Lemma foundBestKnownBlockNumber_oldest
    (env : Env) (ests : list SyncState) (best : JS.number) :
  foundBestKnownBlockNumber env ests best = true
  <-> exists first,
        Spec.oldestFresh env ests first
        /\ JS.ge (JS.sub best (bestKnownBlockNumber first)) (JS.of_Z 50)
           = false.
Proof.
  unfold foundBestKnownBlockNumber. cbv zeta.
  destruct (nth_error (getEstimatesByCurrentNode env ests) 0) as [first|] eqn:E.
  - apply view_head_inv in E. unfold bestKnownBlockNumberDiff. split.
    + intros H. exists first. split; [exact E|].
      destruct (JS.ge _ _); [discriminate | reflexivity].
    + intros (first' & Hfirst' & Hdiff).
      apply view_head_oldest in E, Hfirst'.
      assert (first' = first) by congruence. subst first'.
      rewrite Hdiff. reflexivity.
  - split; [discriminate|].
    intros (first & Hfirst & _). apply view_head_oldest in Hfirst. congruence.
Qed.

(** C3 at a concrete window.  Two samples are retained, with best-known tips
    1000 and 1100; the tick reports 1105.  The most recent retained sample
    is the second one and the tip moved by 5 < 50 since, yet the code
    compares with the first one (1105 - 1000 >= 50) and answers [false]. *)
Theorem foundBestKnownBlockNumber_not_previous :
  Spec.newestFresh (Spec.at_ 2000 "n")
    [Spec.sample "n" 1000 0 0 1000; Spec.sample "n" 1500 0 0 1100]
    (Spec.sample "n" 1500 0 0 1100)
  /\ JS.lt (JS.sub (JS.of_Z 1105)
              (bestKnownBlockNumber (Spec.sample "n" 1500 0 0 1100)))
       (JS.of_Z 50) = true
  /\ foundBestKnownBlockNumber (Spec.at_ 2000 "n")
       [Spec.sample "n" 1000 0 0 1000; Spec.sample "n" 1500 0 0 1100]
       (JS.of_Z 1105) = false.
Proof.
  split; [|split; reflexivity].
  exists [Spec.sample "n" 1000 0 0 1000], [].
  repeat split; [unfold sampleTime; simpl; lia | constructor].
Qed.

(* ================================================================= *)
(** ** Rate and estimate of a tick *)

(** A quotient of an advance of at least 50 blocks is never zero: it is
    truthy unless it is [NaN]. *)
Lemma div_advance_truthy (advanced : JS.number) (elapsed : Z) :
  JS.lt advanced (JS.of_Z 50) = false ->
  JS.div advanced (JS.of_Z elapsed) <> JS.NaN ->
  JS.truthy (JS.div advanced (JS.of_Z elapsed)) = true.
Proof.
  unfold JS.of_Z.
  destruct advanced as [| | |x]; simpl; try congruence.
  - intros _ _. destruct (JS.Qlt_bool _ _); reflexivity.
  - intros Hfast. apply Qlt_bool_false_iff in Hfast.
    destruct (Qeq_bool (inject_Z elapsed) 0) eqn:Ez.
    + destruct (Qeq_bool x 0); [congruence|].
      destruct (JS.Qlt_bool x 0); reflexivity.
    + intros _. simpl. apply negb_true_iff.
      destruct (Qeq_bool (x / inject_Z elapsed) 0) eqn:Eq; [|reflexivity].
      exfalso. apply Qeq_bool_iff in Eq.
      apply Qeq_bool_neq in Ez.
      assert (Hx : (x == 0)%Q).
      { rewrite <- (Qmult_div_r x _ Ez), Eq. ring. }
      rewrite Hx in Hfast. revert Hfast. apply Qlt_not_le. reflexivity.
Qed.

Lemma calculateAvgIndexRate_truthy
    (env : Env) (ests : list SyncState) (tip : JS.number) (t : Z)
    (r : JS.number) :
  calculateAvgIndexRate env ests tip t = Some r ->
  r <> JS.NaN -> JS.truthy r = true.
Proof.
  unfold calculateAvgIndexRate.
  destruct (nth_error _ 0) as [first|]; [|discriminate].
  unfold indexerTipDiff. cbv zeta.
  destruct (JS.lt _ _) eqn:Hfast; [discriminate|].
  intros [= <-]. apply div_advance_truthy. exact Hfast.
Qed.

Lemma truthy_not_NaN (r : JS.number) : JS.truthy r = true -> r <> JS.NaN.
Proof. destruct r; simpl; congruence. Qed.

(** X18.  The sample of a tick has [indexRate] and [estimate] set exactly
    when [#foundBestKnownBlockNumber] answers [true], the cache has not
    caught up, and [#calculateAvgIndexRate] returns a value that is neither
    [undefined] nor [NaN].  A tick with [allCached] leaves both
    [undefined]; and when they are set, [indexRate] is the computed rate and
    [estimate = Math.round((bestKnownTip - indexerTip) / indexRate)]. *)
Theorem rate_and_estimate_populated
    (env0 env1 : Env) (states : States.t) (rpc : Rpc) (ests : list SyncState)
    (hdr : Header.t) (best bestTs : JS.number) :
  tipHeader rpc = Some hdr ->
  fetchBestKnownBlockInfo rpc = Some (best, bestTs) ->
  exists s ests',
    estimate_ env0 states rpc env1 ests = Some (s, ests')
    /\ ((indexRate s <> None /\ estimate s <> None)
        <-> (foundBestKnownBlockNumber env1 ests best = true
             /\ Spec.allCached best states = false
             /\ exists r,
                  calculateAvgIndexRate env1 ests (Spec.indexerTip states)
                    (now env0) = Some r
                  /\ r <> JS.NaN))
    /\ (Spec.allCached best states = true ->
        indexRate s = None /\ estimate s = None)
    /\ (forall r e,
          indexRate s = Some r -> estimate s = Some e ->
          calculateAvgIndexRate env1 ests (Spec.indexerTip states) (now env0)
          = Some r
          /\ e = JS.Math_round
                   (JS.div (JS.sub best (Spec.indexerTip states)) r)).
Proof.
  intros Htip Hinfo.
  unfold Spec.allCached, Spec.cacheTip, Spec.indexerTip.
  unfold estimate_. rewrite Htip, Hinfo. cbv zeta. unfold cacheDiff.
  destruct (foundBestKnownBlockNumber env1 ests best) eqn:Hstable.
  2:{ eexists; eexists; split; [reflexivity|]. cbn.
      split; [split|split]; solve_case. }
  destruct (JS.lt (JS.sub best _) (JS.of_Z 5)) eqn:Hcached.
  - destruct (JS.ge (JS.add _ _) _); cbn [timestamp setStatus];
      destruct (JS.lt (JS.add _ _) _);
      destruct (calculateAvgIndexRate env1 ests _ _);
      eexists; eexists; (split; [reflexivity|]); cbn;
      (split; [split|split]); solve_case.
  - destruct (calculateAvgIndexRate env1 ests _ _) as [r|] eqn:Hrate.
    2:{ eexists; eexists; split; [reflexivity|]. cbn.
        split; [split|split]; solve_case. }
    cbn [negb andb].
    destruct (JS.truthy r) eqn:Htruthy.
    + eexists; eexists; split; [reflexivity|]. cbn.
      split; [split|split]; solve_case.
      exists r. split; [reflexivity | apply truthy_not_NaN, Htruthy].
    + eexists; eexists; split; [reflexivity|]. cbn.
      split; [split|split]; solve_case.
      all: exfalso;
        match goal with
        | Hr : Some _ = Some ?r', Hnum : ?r' <> JS.NaN |- _ =>
            injection Hr as <-;
            apply (calculateAvgIndexRate_truthy _ _ _ _ _ Hrate) in Hnum
        end;
        congruence.
Qed.

Lemma rate_and_estimate_populated_witness :
  exists s ests',
    estimate_ (Spec.at_ 10000 "n") (Spec.payload "160" "95")
      (Spec.answers 1005 9000) (Spec.at_ 10000 "n")
      [Spec.sample "n" 0 100 90 1000] = Some (s, ests')
    /\ indexRate s <> None /\ estimate s <> None.
Proof.
  destruct
    (rate_and_estimate_populated
       (Spec.at_ 10000 "n") (Spec.at_ 10000 "n")
       (Spec.payload "160" "95") (Spec.answers 1005 9000)
       [Spec.sample "n" 0 100 90 1000]
       {| Header.number := JS.of_Z 1005; Header.timestamp := JS.of_Z 9000 |}
       (JS.of_Z 1005) (JS.of_Z 9000) eq_refl eq_refl)
    as (s & ests' & Hrun & Hiff & _).
  exists s, ests'. split; [exact Hrun|].
  apply Hiff. split; [reflexivity | split; [reflexivity|]].
  eexists. split; [reflexivity | discriminate].
Defined.

(** C4 at a concrete tick.  On the window of the C1 tick, the tick reports
    best-known tip 1105, indexer tip 100 and cache tip 0: the tip is stable
    (it moved by 5 < 50 blocks since the previous sample), the cache has not
    caught up, and the rate is computable (100 blocks in 1000 ms), so the
    sample should carry a rate and an estimate.  The code compares with the
    first retained sample (1105 - 1000 >= 50) and sets neither. *)
Theorem rate_not_populated_on_stable_tip :
  Spec.bestKnownTipStable (Spec.at_ 2000 "n")
    [Spec.sample "n" 1000 0 0 1000; Spec.sample "n" 1500 0 0 1100]
    (JS.of_Z 1105)
  /\ Spec.allCached (JS.of_Z 1105) (Spec.payload "100" "0") = false
  /\ calculateAvgIndexRate (Spec.at_ 2000 "n")
       [Spec.sample "n" 1000 0 0 1000; Spec.sample "n" 1500 0 0 1100]
       (Spec.indexerTip (Spec.payload "100" "0")) 2000
     = Some (JS.div (JS.of_Z 100) (JS.of_Z 1000))
  /\ JS.div (JS.of_Z 100) (JS.of_Z 1000) <> JS.NaN
  /\ exists s ests',
       estimate_ (Spec.at_ 2000 "n") (Spec.payload "100" "0")
         (Spec.answers 1105 1900) (Spec.at_ 2000 "n")
         [Spec.sample "n" 1000 0 0 1000; Spec.sample "n" 1500 0 0 1100]
       = Some (s, ests')
       /\ indexRate s = None
       /\ estimate s = None.
Proof.
  split; [|split; [reflexivity|split; [reflexivity|split; [discriminate|]]]].
  - exists (Spec.sample "n" 1500 0 0 1100). split; [|reflexivity].
    exists [Spec.sample "n" 1000 0 0 1000], [].
    repeat split; [unfold sampleTime; simpl; lia | constructor].
  - eexists. eexists. repeat split.
Qed.

(* ================================================================= *)
(** ** Pushing into the window *)

(** C5.  Right after a push made at [env], the window is the pushed sample
    preceded by exactly those former samples that belong to the active node
    and are at most 60000 ms old at [now env]; nothing stale or foreign
    survives, and nothing retained is lost. *)
Theorem push_keeps_only_fresh_active
    (env : Env) (ests : list SyncState) (s : SyncState) :
  exists kept,
    updateEstimates env ests s = (s, kept ++ [s])
    /\ Forall
         (fun x =>
            nodeUrl x = currentNodeUrl env /\ now env - timestamp x <= 60000)
         kept
    /\ (forall x, In x kept <-> In x ests /\ Spec.fresh env x).
Proof.
  destruct (updateEstimates_kept env ests s) as (kept & Heq & Hfresh & Hin).
  exists kept. split; [exact Heq|]. split; [exact Hfresh | exact Hin].
Qed.

(** The same after a whole tick, whatever sequence of events came before. *)
Lemma tick_keeps_only_fresh_active
    (events : list Event) (env0 env1 : Env) (states : States.t) (rpc : Rpc)
    (hdr : Header.t) (info : JS.number * JS.number) :
  tipHeader rpc = Some hdr ->
  fetchBestKnownBlockInfo rpc = Some info ->
  exists s kept,
    estimates
      (handle (run events) (CacheTipBlockUpdated env0 states rpc env1))
    = kept ++ [s]
    /\ Forall (Spec.fresh env1) kept.
Proof.
  intros Htip Hinfo.
  destruct (estimate_total env0 env1 states rpc (estimates (run events))
              hdr info Htip Hinfo) as (s & kept & Hrun & Hfresh & _).
  exists s, kept. split; [|exact Hfresh].
  cbn [handle]. unfold onCacheTipBlockUpdated. rewrite Hrun.
  destruct (JS.BigInt (cacheTipNumber s)); reflexivity.
Qed.

(* ================================================================= *)
(** ** Reset on a change of node *)

(** C6.  Handling a change of the active node replaces the window with one
    sample: owned by the new node, all numbers zero, no rate or estimate,
    status [SyncNotStart]; [getSyncStatus] then answers [SyncNotStart]. *)
Theorem reset_on_node_change (env : Env) (c : Controller) :
  exists b,
    estimates (fst (onCurrentNetworkIDChanged env c)) = [b]
    /\ nodeUrl b = currentNodeUrl env
    /\ timestamp b = 0
    /\ indexerTipNumber b = JS.of_Z 0
    /\ cacheTipNumber b = JS.of_Z 0
    /\ bestKnownBlockNumber b = JS.of_Z 0
    /\ bestKnownBlockTimestamp b = JS.of_Z 0
    /\ indexRate b = None /\ cacheRate b = None /\ estimate b = None
    /\ status b = SyncNotStart
    /\ getSyncStatus (fst (onCurrentNetworkIDChanged env c))
       = Some SyncNotStart.
Proof.
  exists (bootstrap (currentNodeUrl env)). repeat split.
Qed.

(** [getSyncStatus] never fails: it answers the status of the newest sample,
    or [SyncNotStart] on an empty window. *)
Lemma getSyncStatus_newest (c : Controller) :
  getSyncStatus c
  = Some match Spec.newest (estimates c) with
         | Some latest => status latest
         | None => SyncNotStart
         end.
Proof.
  unfold getSyncStatus, Spec.newest.
  destruct (estimates c) as [|s ests] using rev_ind; [reflexivity|].
  rewrite rev_app_distr, length_app. simpl.
  replace (length ests + 1 - 1)%nat with (length ests) by lia.
  replace (length ests + 1 =? 0)%nat with false
    by (symmetry; apply Nat.eqb_neq; lia).
  rewrite nth_error_app2, Nat.sub_diag by lia. reflexivity.
Qed.

(* ================================================================= *)
(** ** Estimation cache *)

Lemma nth_error_last (ests : list SyncState) :
  nth_error ests (length ests - 1) = Spec.newest ests.
Proof.
  unfold Spec.newest.
  destruct ests as [|s ests] using rev_ind; [reflexivity|].
  rewrite rev_app_distr, length_app. simpl.
  rewrite nth_error_app2 by lia.
  replace (length ests + 1 - 1 - length ests)%nat with 0%nat by lia.
  reflexivity.
Qed.

Lemma newest_two (pre : list SyncState) (previous latest : SyncState) :
  Spec.newest (pre ++ [previous; latest]) = Some latest.
Proof. unfold Spec.newest. rewrite rev_app_distr. reflexivity. Qed.

Lemma nth_error_previous (pre : list SyncState) (previous latest : SyncState) :
  nth_error (pre ++ [previous; latest])
    (length (pre ++ [previous; latest]) - 2) = Some previous.
Proof.
  rewrite length_app. simpl.
  rewrite nth_error_app2 by lia.
  replace (length pre + 2 - 2 - length pre)%nat with 0%nat by lia.
  reflexivity.
Qed.

(** A window of two samples or more ends with a previous and a latest one. *)
Lemma two_most_recent (ests : list SyncState) :
  (1 < length ests)%nat ->
  exists pre previous latest, ests = pre ++ [previous; latest].
Proof.
  destruct ests as [|latest ests _] using rev_ind; [simpl; lia|].
  destruct ests as [|previous pre _] using rev_ind.
  - simpl; lia.
  - intros _. exists pre, previous, latest. rewrite <- app_assoc. reflexivity.
Qed.

(** C7.  Whatever the cache holds, when the window ends with two samples of
    the same [cacheTipNumber] the newest sample is returned and cached.
    Otherwise, with a sample [cached] in the cache, the newest sample
    replaces it exactly when [cached] belongs to another node than the
    active one or is at least 60000 ms old; in the remaining case [cached]
    is returned and nothing changes. *)
Theorem cached_estimation_policy
    (env : Env) (ests : list SyncState) (cached : SyncState) :
  (forall cache pre previous latest,
      ests = pre ++ [previous; latest] ->
      JS.strict_eq (cacheTipNumber previous) (cacheTipNumber latest) = true ->
      getCachedEstimation env
        {| estimates := ests; cachedEstimation := cache |}
      = (Some latest,
         {| estimates := ests; cachedEstimation := Some latest |}))
  /\ ((forall pre previous latest,
          ests = pre ++ [previous; latest] ->
          JS.strict_eq (cacheTipNumber previous) (cacheTipNumber latest)
          = false) ->
      (nodeUrl cached <> currentNodeUrl env
       \/ 60000 <= now env - timestamp cached ->
       getCachedEstimation env
         {| estimates := ests; cachedEstimation := Some cached |}
       = (Spec.newest ests,
          {| estimates := ests; cachedEstimation := Spec.newest ests |}))
      /\ (nodeUrl cached = currentNodeUrl env ->
          now env - timestamp cached < 60000 ->
          getCachedEstimation env
            {| estimates := ests; cachedEstimation := Some cached |}
          = (Some cached,
             {| estimates := ests; cachedEstimation := Some cached |}))).
Proof.
  split.
  - intros cache pre previous latest -> Hsame.
    unfold getCachedEstimation. cbn [estimates cachedEstimation].
    rewrite nth_error_previous, nth_error_last, newest_two, Hsame.
    replace (1 <? _)%nat with true
      by (symmetry; apply Nat.ltb_lt; rewrite length_app; simpl; lia).
    destruct cache; reflexivity.
  - intros Hmoved.
    assert (Hfirst :
      (1 <? length ests)%nat
      && match nth_error ests (length ests - 2),
               nth_error ests (length ests - 1) with
         | Some previous, Some latest =>
             JS.strict_eq (cacheTipNumber previous) (cacheTipNumber latest)
         | _, _ => false
         end = false).
    { destruct (1 <? length ests)%nat eqn:Hlen; [|reflexivity].
      apply Nat.ltb_lt, two_most_recent in Hlen.
      destruct Hlen as (pre & previous & latest & ->).
      rewrite nth_error_previous, nth_error_last, newest_two.
      apply (Hmoved pre previous latest eq_refl). }
    unfold getCachedEstimation. cbn [estimates cachedEstimation].
    rewrite Hfirst, nth_error_last. unfold sampleTime, withCache.
    cbn [estimates]. split.
    + intros Hstale.
      replace (negb _ || _) with true; [reflexivity|].
      symmetry. apply orb_true_iff. destruct Hstale as [Hnode | Hage].
      * left. apply negb_true_iff, String.eqb_neq. exact Hnode.
      * right. apply Z.leb_le. lia.
    + intros Hnode Hage.
      replace (negb _ || _) with false; [reflexivity|].
      symmetry. apply orb_false_iff. split.
      * apply negb_false_iff, String.eqb_eq. exact Hnode.
      * apply Z.leb_gt. lia.
Qed.

Lemma cached_estimation_policy_witness :
  getCachedEstimation (Spec.at_ 3000 "n")
    {| estimates := [Spec.sample "n" 1000 10 7 100; Spec.sample "n" 2000 20 7 100];
       cachedEstimation := Some (Spec.sample "n" 1000 10 7 100) |}
  = (Some (Spec.sample "n" 2000 20 7 100),
     {| estimates := [Spec.sample "n" 1000 10 7 100; Spec.sample "n" 2000 20 7 100];
        cachedEstimation := Some (Spec.sample "n" 2000 20 7 100) |})
  /\ getCachedEstimation (Spec.at_ 3000 "n")
       {| estimates := [Spec.sample "n" 2000 20 9 100];
          cachedEstimation := Some (Spec.sample "n" 1000 10 7 100) |}
     = (Some (Spec.sample "n" 1000 10 7 100),
        {| estimates := [Spec.sample "n" 2000 20 9 100];
           cachedEstimation := Some (Spec.sample "n" 1000 10 7 100) |})
  /\ getCachedEstimation (Spec.at_ 3000 "m")
       {| estimates := [Spec.sample "m" 2000 20 9 100];
          cachedEstimation := Some (Spec.sample "n" 1000 10 7 100) |}
     = (Some (Spec.sample "m" 2000 20 9 100),
        {| estimates := [Spec.sample "m" 2000 20 9 100];
           cachedEstimation := Some (Spec.sample "m" 2000 20 9 100) |}).
Proof.
  assert (Hone : forall (x : SyncState) pre previous latest,
            [x] = pre ++ [previous; latest] ->
            JS.strict_eq (cacheTipNumber previous) (cacheTipNumber latest)
            = false).
  { intros x pre previous latest H. apply (f_equal (@length _)) in H.
    rewrite length_app in H. simpl in H. lia. }
  split; [|split].
  - apply (proj1 (cached_estimation_policy (Spec.at_ 3000 "n")
                    [Spec.sample "n" 1000 10 7 100;
                     Spec.sample "n" 2000 20 7 100]
                    (Spec.sample "n" 1000 10 7 100))
             (Some (Spec.sample "n" 1000 10 7 100))
             [] (Spec.sample "n" 1000 10 7 100) (Spec.sample "n" 2000 20 7 100)
             eq_refl eq_refl).
  - apply (proj2 (cached_estimation_policy (Spec.at_ 3000 "n")
                    [Spec.sample "n" 2000 20 9 100]
                    (Spec.sample "n" 1000 10 7 100))
             (Hone _)); [reflexivity | simpl; lia].
  - apply (proj1 (proj2 (cached_estimation_policy (Spec.at_ 3000 "m")
                    [Spec.sample "m" 2000 20 9 100]
                    (Spec.sample "n" 1000 10 7 100))
             (Hone _))).
    left. simpl. discriminate.
Defined.

(** C9.  On an empty window with nothing cached yet, [getCachedEstimation]
    returns [undefined] and stores [undefined] as the cached value. *)
Theorem cached_estimation_of_empty_window (env : Env) :
  getCachedEstimation env {| estimates := []; cachedEstimation := None |}
  = (None, {| estimates := []; cachedEstimation := None |}).
Proof. reflexivity. Qed.

(** With nothing cached yet the newest sample is returned and cached,
    whatever the window. *)
Lemma cached_estimation_first_read (env : Env) (ests : list SyncState) :
  getCachedEstimation env {| estimates := ests; cachedEstimation := None |}
  = (Spec.newest ests,
     {| estimates := ests; cachedEstimation := Spec.newest ests |}).
Proof.
  unfold getCachedEstimation. cbn [estimates cachedEstimation].
  rewrite nth_error_last. reflexivity.
Qed.

(* ================================================================= *)
(** ** The bootstrap sample *)

(** The bootstrap sample is too old for any view taken after 60000. *)
Lemma bootstrap_not_fresh (env : Env) (url : string) :
  60000 < now env -> ~ Spec.fresh env (bootstrap url).
Proof.
  intros Hclock [_ Hage]. unfold sampleTime in Hage. simpl in Hage. lia.
Qed.

(** C10.  The bootstrap sample of a reset has timestamp 0.  Once the clock
    reads more than 60000 it is in no per-node filtered view, so on the
    window a reset leaves behind the rate computation answers [undefined]
    and the stability check [false]; the first tick then produces a sample
    without rate or estimate, with status [Syncing], and its push drops the
    bootstrap sample. *)
Theorem first_tick_after_reset
    (envR env0 env1 : Env) (c : Controller) (states : States.t) (rpc : Rpc)
    (hdr : Header.t) (best bestTs : JS.number) :
  60000 < now env1 ->
  tipHeader rpc = Some hdr ->
  fetchBestKnownBlockInfo rpc = Some (best, bestTs) ->
  timestamp (bootstrap (currentNodeUrl envR)) = 0
  /\ estimates (fst (onCurrentNetworkIDChanged envR c))
     = [bootstrap (currentNodeUrl envR)]
  /\ (forall ests,
        ~ In (bootstrap (currentNodeUrl envR))
            (getEstimatesByCurrentNode env1 ests))
  /\ (forall tip t,
        calculateAvgIndexRate env1
          (estimates (fst (onCurrentNetworkIDChanged envR c))) tip t = None)
  /\ foundBestKnownBlockNumber env1
       (estimates (fst (onCurrentNetworkIDChanged envR c))) best = false
  /\ (forall new,
        updateEstimates env1
          (estimates (fst (onCurrentNetworkIDChanged envR c))) new
        = (new, [new]))
  /\ exists s,
       estimate_ env0 states rpc env1
         (estimates (fst (onCurrentNetworkIDChanged envR c)))
       = Some (s, [s])
       /\ indexRate s = None
       /\ estimate s = None
       /\ status s = Syncing.
Proof.
  intros Hclock Htip Hinfo.
  assert (Hview :
    getEstimatesByCurrentNode env1 [bootstrap (currentNodeUrl envR)] = []).
  { rewrite <- (app_nil_r [_]). rewrite view_skip; [reflexivity|].
    constructor; [|constructor]. apply bootstrap_not_fresh, Hclock. }
  cbn [onCurrentNetworkIDChanged fst estimates].
  split; [reflexivity|]. split; [reflexivity|].
  split; [|split; [|split; [|split]]].
  - intros ests Hin. apply In_view in Hin.
    exact (bootstrap_not_fresh _ _ Hclock (proj2 Hin)).
  - intros tip t. unfold calculateAvgIndexRate. rewrite Hview. reflexivity.
  - unfold foundBestKnownBlockNumber. rewrite Hview. reflexivity.
  - intros new. unfold updateEstimates. rewrite Hview. reflexivity.
  - unfold estimate_. rewrite Htip, Hinfo. cbv zeta.
    unfold foundBestKnownBlockNumber, updateEstimates. rewrite Hview.
    cbn. eexists. repeat split.
Qed.

Lemma first_tick_after_reset_witness :
  exists s,
    estimate_ (Spec.at_ 100000 "m") (Spec.payload "160" "95")
      (Spec.answers 1005 99000) (Spec.at_ 100001 "m")
      (estimates (fst (onCurrentNetworkIDChanged (Spec.at_ 90000 "m") initial)))
    = Some (s, [s])
    /\ indexRate s = None /\ estimate s = None /\ status s = Syncing.
Proof.
  apply (first_tick_after_reset
           (Spec.at_ 90000 "m") (Spec.at_ 100000 "m") (Spec.at_ 100001 "m")
           initial (Spec.payload "160" "95") (Spec.answers 1005 99000)
           {| Header.number := JS.of_Z 1005;
              Header.timestamp := JS.of_Z 99000 |}
           (JS.of_Z 1005) (JS.of_Z 99000)
           ltac:(simpl; lia) eq_refl eq_refl).
Defined.

(* ================================================================= *)
(** ** Malformed payloads *)






(* ================================================================= *)
(** ** More on a tick: what its sample records *)

(** Splits a tick along every test [#estimate] makes. *)
Ltac tick_cases :=
  unfold estimate_;
  repeat match goal with
         | H : tipHeader _ = Some _ |- _ => rewrite H
         | H : fetchBestKnownBlockInfo _ = Some _ |- _ => rewrite H
         end;
  cbv zeta;
  destruct (foundBestKnownBlockNumber _ _ _) eqn:Hstable;
  [ destruct (JS.lt (JS.sub _ _) (JS.of_Z cacheDiff)) eqn:Hcached;
    [ destruct (JS.ge (JS.add _ _) _) eqn:Hfreshtip;
      cbn [timestamp setStatus];
      destruct (JS.lt (JS.add _ _) _) eqn:Hstaletip;
      destruct (calculateAvgIndexRate _ _ _ _) as [r|] eqn:Hrate
    | destruct (calculateAvgIndexRate _ _ _ _) as [r|] eqn:Hrate;
      [ cbn [negb andb]; destruct (JS.truthy r) eqn:Htruthy | ] ]
  | ].

(** The sample of a tick: the fields it copies from its inputs and the
    shape of the fields it computes. *)
Lemma tick_sample_shape
    (env0 env1 : Env) (states : States.t) (rpc : Rpc) (ests : list SyncState)
    (hdr : Header.t) (best bestTs : JS.number) :
  tipHeader rpc = Some hdr ->
  fetchBestKnownBlockInfo rpc = Some (best, bestTs) ->
  exists s,
    estimate_ env0 states rpc env1 ests = Some (updateEstimates env1 ests s)
    /\ nodeUrl s = currentNodeUrl env0
    /\ timestamp s = now env0
    /\ indexerTipNumber s = Spec.indexerTip states
    /\ cacheTipNumber s = Spec.cacheTip states
    /\ bestKnownBlockNumber s = best
    /\ bestKnownBlockTimestamp s = bestTs
    /\ cacheRate s = None
    /\ status s <> SyncNotStart
    /\ (indexRate s = None <-> estimate s = None)
    /\ (status s <> Syncing -> indexRate s = None /\ estimate s = None)
    /\ (foundBestKnownBlockNumber env1 ests best = false ->
        status s = Syncing /\ indexRate s = None /\ estimate s = None).
Proof.
  intros Htip Hinfo. tick_cases.
  all: eexists; (split; [reflexivity|]); cbn.
  all: repeat match goal with
              | |- _ /\ _ => split
              | |- _ <-> _ => split
              end.
  all: try reflexivity; try discriminate; intros; try congruence.
  all: repeat split.
Qed.

Lemma fetchBestKnownBlockInfo_none (rpc : Rpc) :
  fetchBestKnownBlockInfo rpc = None
  <-> syncState rpc = None /\ fallbackTipHeader rpc = None.
Proof.
  unfold fetchBestKnownBlockInfo.
  destruct (syncState rpc), (fallbackTipHeader rpc);
    split; try discriminate; try tauto; intros [? ?]; discriminate.
Qed.

(** X1.  A tick is rejected exactly when [getTipHeader] fails or both the
    [sync_state] call and its fallback fail; the listener then leaves the
    controller as it was and hands nothing to its collaborators. *)
Theorem tick_rejected_iff_rpc_fails
    (env0 env1 : Env) (states : States.t) (rpc : Rpc) (c : Controller) :
  (estimate_ env0 states rpc env1 (estimates c) = None
   <-> tipHeader rpc = None
       \/ (syncState rpc = None /\ fallbackTipHeader rpc = None))
  /\ (estimate_ env0 states rpc env1 (estimates c) = None ->
      onCacheTipBlockUpdated env0 states rpc env1 c = (c, [])).
Proof.
  split.
  - rewrite <- fetchBestKnownBlockInfo_none.
    destruct (tipHeader rpc) as [hdr|] eqn:Htip.
    + destruct (fetchBestKnownBlockInfo rpc) as [[best bestTs]|] eqn:Hinfo.
      * destruct (tick_sample_shape env0 env1 states rpc (estimates c)
                    hdr best bestTs Htip Hinfo) as (s & Hrun & _).
        rewrite Hrun. split; [discriminate|]. intros [H | H]; discriminate.
      * unfold estimate_. rewrite Htip, Hinfo. tauto.
    + unfold estimate_. rewrite Htip. tauto.
  - intros Hnone. unfold onCacheTipBlockUpdated. rewrite Hnone. reflexivity.
Qed.

Lemma tick_rejected_iff_rpc_fails_witness :
  onCacheTipBlockUpdated (Spec.at_ 10000 "n") (Spec.payload "160" "95")
    {| tipHeader := None;
       syncState := Some (JS.of_Z 1005, JS.of_Z 9000);
       fallbackTipHeader := None |}
    (Spec.at_ 10000 "n")
    {| estimates := [Spec.sample "n" 0 100 90 1000];
       cachedEstimation := None |}
  = ({| estimates := [Spec.sample "n" 0 100 90 1000];
        cachedEstimation := None |}, []).
Proof.
  apply (proj2 (tick_rejected_iff_rpc_fails
                  (Spec.at_ 10000 "n") (Spec.at_ 10000 "n")
                  (Spec.payload "160" "95")
                  {| tipHeader := None;
                     syncState := Some (JS.of_Z 1005, JS.of_Z 9000);
                     fallbackTipHeader := None |}
                  {| estimates := [Spec.sample "n" 0 100 90 1000];
                     cachedEstimation := None |})).
  reflexivity.
Defined.

(** X2.  The best-known block of a sample comes from [sync_state] when that
    call answers, whatever the fallback would say; when it fails, the height
    and the time of the fallback tip header stand in for it. *)
Theorem best_known_block_source
    (env0 env1 : Env) (states : States.t) (rpc : Rpc) (ests : list SyncState)
    (hdr : Header.t) :
  tipHeader rpc = Some hdr ->
  (forall number time,
      syncState rpc = Some (number, time) ->
      exists s ests',
        estimate_ env0 states rpc env1 ests = Some (s, ests')
        /\ bestKnownBlockNumber s = number
        /\ bestKnownBlockTimestamp s = time)
  /\ (forall fallback,
        syncState rpc = None ->
        fallbackTipHeader rpc = Some fallback ->
        exists s ests',
          estimate_ env0 states rpc env1 ests = Some (s, ests')
          /\ bestKnownBlockNumber s = Header.number fallback
          /\ bestKnownBlockTimestamp s = Header.timestamp fallback).
Proof.
  intros Htip. split.
  - intros number time Hsync.
    assert (Hinfo : fetchBestKnownBlockInfo rpc = Some (number, time))
      by (unfold fetchBestKnownBlockInfo; rewrite Hsync; reflexivity).
    destruct (tick_sample_shape env0 env1 states rpc ests hdr number time
                Htip Hinfo)
      as (s & Hrun & _ & _ & _ & _ & Hnumber & Htime & _).
    exists s, (snd (updateEstimates env1 ests s)).
    split; [exact Hrun | split; assumption].
  - intros fallback Hsync Hfallback.
    assert (Hinfo : fetchBestKnownBlockInfo rpc
                    = Some (Header.number fallback, Header.timestamp fallback))
      by (unfold fetchBestKnownBlockInfo; rewrite Hsync, Hfallback;
          reflexivity).
    destruct (tick_sample_shape env0 env1 states rpc ests hdr _ _ Htip Hinfo)
      as (s & Hrun & _ & _ & _ & _ & Hnumber & Htime & _).
    exists s, (snd (updateEstimates env1 ests s)).
    split; [exact Hrun | split; assumption].
Qed.

Lemma best_known_block_source_witness :
  exists s ests',
    estimate_ (Spec.at_ 10000 "n") (Spec.payload "160" "95")
      {| tipHeader :=
           Some {| Header.number := JS.of_Z 1005;
                   Header.timestamp := JS.of_Z 9000 |};
         syncState := None;
         fallbackTipHeader :=
           Some {| Header.number := JS.of_Z 1006;
                   Header.timestamp := JS.of_Z 9500 |} |}
      (Spec.at_ 10000 "n") [] = Some (s, ests')
    /\ bestKnownBlockNumber s = JS.of_Z 1006
    /\ bestKnownBlockTimestamp s = JS.of_Z 9500.
Proof.
  apply (proj2 (best_known_block_source
                  (Spec.at_ 10000 "n") (Spec.at_ 10000 "n")
                  (Spec.payload "160" "95")
                  {| tipHeader :=
                       Some {| Header.number := JS.of_Z 1005;
                               Header.timestamp := JS.of_Z 9000 |};
                     syncState := None;
                     fallbackTipHeader :=
                       Some {| Header.number := JS.of_Z 1006;
                               Header.timestamp := JS.of_Z 9500 |} |}
                  []
                  {| Header.number := JS.of_Z 1005;
                     Header.timestamp := JS.of_Z 9000 |}
                  eq_refl)
           {| Header.number := JS.of_Z 1006;
              Header.timestamp := JS.of_Z 9500 |}
           eq_refl eq_refl).
Defined.

(** X3.  The status of a tick's sample, read backwards: it is
    [SyncCompleted] exactly when [#foundBestKnownBlockNumber] answers
    [true], the cache has caught up and the node's tip is at most 180000 ms
    old; [SyncPending] exactly when [#foundBestKnownBlockNumber] answers
    [true], the cache has caught up and the node's tip is more than
    600000 ms old; never [SyncNotStart]; and [Syncing] in every other
    case. *)
Theorem status_of_tick
    (env0 env1 : Env) (states : States.t) (rpc : Rpc) (ests : list SyncState)
    (hdr : Header.t) (best bestTs : JS.number) :
  tipHeader rpc = Some hdr ->
  fetchBestKnownBlockInfo rpc = Some (best, bestTs) ->
  exists s ests',
    estimate_ env0 states rpc env1 ests = Some (s, ests')
    /\ (status s = SyncCompleted
        <-> foundBestKnownBlockNumber env1 ests best = true
            /\ Spec.allCached best states = true
            /\ JS.le (Spec.tipAge env0 hdr) (JS.of_Z 180000) = true)
    /\ (status s = SyncPending
        <-> foundBestKnownBlockNumber env1 ests best = true
            /\ Spec.allCached best states = true
            /\ JS.gt (Spec.tipAge env0 hdr) (JS.of_Z 600000) = true)
    /\ status s <> SyncNotStart
    /\ (status s <> SyncCompleted -> status s <> SyncPending ->
        status s = Syncing).
Proof.
  intros Htip Hinfo.
  unfold Spec.allCached, Spec.cacheTip, Spec.tipAge.
  rewrite le_sub_iff_ge_add, gt_sub_iff_lt_add.
  set (t := Header.timestamp hdr).
  assert (Hexcl :
    JS.ge (JS.add t (JS.of_Z 180000)) (JS.of_Z (now env0)) = true ->
    JS.lt (JS.add t (JS.of_Z 600000)) (JS.of_Z (now env0)) = true -> False).
  { rewrite <- le_sub_iff_ge_add, <- gt_sub_iff_lt_add. intros Hle Hgt.
    exact (le_gt_exclusive _ _
             (le_of_Z_mono _ 180000 600000 ltac:(lia) Hle) Hgt). }
  unfold estimate_. rewrite Htip, Hinfo. cbv zeta.
  unfold cacheDiff, MAX_TIP_BLOCK_DELAY, TEN_MINS. fold t.
  destruct (foundBestKnownBlockNumber env1 ests best) eqn:Hstable.
  2:{ eexists; eexists; split; [reflexivity|]. cbn.
      repeat match goal with |- _ /\ _ => split | |- _ <-> _ => split end;
        intros; break_hyps; first [congruence | repeat split]. }
  destruct (JS.lt (JS.sub best _) (JS.of_Z 5)) eqn:Hcached.
  - cbn [timestamp].
    destruct (JS.ge (JS.add t _) _) eqn:E1; cbn [timestamp setStatus];
      destruct (JS.lt (JS.add t _) _) eqn:E2;
      try (exfalso; apply Hexcl; reflexivity);
      destruct (calculateAvgIndexRate env1 ests _ _);
      eexists; eexists; (split; [reflexivity|]); cbn;
      repeat match goal with |- _ /\ _ => split | |- _ <-> _ => split end;
      intros; break_hyps; first [congruence | repeat split].
  - destruct (calculateAvgIndexRate env1 ests _ _) as [r|];
      [cbn [negb andb]; destruct (JS.truthy r)|];
      eexists; eexists; (split; [reflexivity|]); cbn;
      repeat match goal with |- _ /\ _ => split | |- _ <-> _ => split end;
      intros; break_hyps; first [congruence | repeat split].
Qed.

Lemma status_of_tick_witness :
  exists s ests',
    estimate_ (Spec.at_ 800000 "n") (Spec.payload "1005" "1003")
      (Spec.answers 1005 100000) (Spec.at_ 800000 "n")
      [Spec.sample "n" 790000 100 90 1000] = Some (s, ests')
    /\ status s = SyncPending.
Proof.
  destruct
    (status_of_tick
       (Spec.at_ 800000 "n") (Spec.at_ 800000 "n")
       (Spec.payload "1005" "1003") (Spec.answers 1005 100000)
       [Spec.sample "n" 790000 100 90 1000]
       {| Header.number := JS.of_Z 1005; Header.timestamp := JS.of_Z 100000 |}
       (JS.of_Z 1005) (JS.of_Z 100000) eq_refl eq_refl)
    as (s & ests' & Hrun & _ & Hpending & _).
  exists s, ests'. split; [exact Hrun|].
  apply Hpending. repeat split.
Defined.

(** X4.  While the best-known tip is not stable, a tick claims nothing:
    its sample has status [Syncing] and neither rate nor estimate, whatever
    the tips and the age of the node's tip. *)
Theorem unstable_tick_claims_nothing
    (env0 env1 : Env) (states : States.t) (rpc : Rpc) (ests : list SyncState)
    (hdr : Header.t) (best bestTs : JS.number) :
  tipHeader rpc = Some hdr ->
  fetchBestKnownBlockInfo rpc = Some (best, bestTs) ->
  foundBestKnownBlockNumber env1 ests best = false ->
  exists s ests',
    estimate_ env0 states rpc env1 ests = Some (s, ests')
    /\ status s = Syncing
    /\ indexRate s = None
    /\ estimate s = None.
Proof.
  intros Htip Hinfo Hunstable.
  destruct (tick_sample_shape env0 env1 states rpc ests hdr best bestTs
              Htip Hinfo) as (s & Hrun & Hshape).
  exists s, (snd (updateEstimates env1 ests s)). split; [exact Hrun|].
  repeat match type of Hshape with _ /\ _ => destruct Hshape as [_ Hshape] end.
  exact (Hshape Hunstable).
Qed.

Lemma unstable_tick_claims_nothing_witness :
  exists s ests',
    estimate_ (Spec.at_ 10000 "n") (Spec.payload "160" "95")
      (Spec.answers 1105 9000) (Spec.at_ 10000 "n")
      [Spec.sample "n" 0 100 90 1000] = Some (s, ests')
    /\ status s = Syncing /\ indexRate s = None /\ estimate s = None.
Proof.
  apply (unstable_tick_claims_nothing
           (Spec.at_ 10000 "n") (Spec.at_ 10000 "n")
           (Spec.payload "160" "95") (Spec.answers 1105 9000)
           [Spec.sample "n" 0 100 90 1000]
           {| Header.number := JS.of_Z 1105; Header.timestamp := JS.of_Z 9000 |}
           (JS.of_Z 1105) (JS.of_Z 9000) eq_refl eq_refl eq_refl).
Defined.

(* ================================================================= *)
(** ** More on the listeners *)

Lemma BigInt_of_Z (z : Z) : JS.BigInt (JS.of_Z z) = Some z.
Proof.
  unfold JS.BigInt, JS.of_Z. rewrite Qfloor_Z.
  replace (Qeq_bool (inject_Z z) (inject_Z z)) with true; [reflexivity|].
  symmetry. apply Qeq_bool_iff. reflexivity.
Qed.

(** [parseInt] answers [NaN], an infinity or an integer, never a
    fraction. *)
Lemma parseInt_integer (input : JS.str) :
  JS.parseInt input = JS.NaN
  \/ JS.parseInt input = JS.PInf
  \/ JS.parseInt input = JS.NInf
  \/ exists z, JS.parseInt input = JS.of_Z z.
Proof.
  unfold JS.parseInt.
  destruct (match JS.trimStart input with
            | [] => (1, JS.trimStart input)
            | ch :: rest =>
                if (ch =? 45)%N then (-1, rest)
                else if (ch =? 43)%N then (1, rest)
                else (1, JS.trimStart input)
            end) as [sign s'].
  destruct (match s' with
            | c0 :: c1 :: rest =>
                if ((c0 =? 48) && ((c1 =? 120) || (c1 =? 88)))%N
                then (16, rest) else (10, s')
            | _ => (10, s')
            end) as [R s''].
  destruct (JS.parseDigits R s'' None) as [mathInt|]; [|left; reflexivity].
  right. unfold JS.ofMathInt.
  destruct (_ <? 9007199254740992); [right; right; eexists; reflexivity|].
  cbv zeta. destruct (2 ^ 1024 <=? _).
  - destruct (_ <? 0); [right; left | left]; reflexivity.
  - right; right; eexists; reflexivity.
Qed.

Lemma onCacheTipBlockUpdated_estimates
    (env0 env1 : Env) (states : States.t) (rpc : Rpc) (c : Controller) :
  estimates (fst (onCacheTipBlockUpdated env0 states rpc env1 c))
  = match estimate_ env0 states rpc env1 (estimates c) with
    | Some (_, ests') => ests'
    | None => estimates c
    end.
Proof.
  unfold onCacheTipBlockUpdated.
  destruct (estimate_ env0 states rpc env1 (estimates c)) as [[s ests']|];
    [|reflexivity].
  destruct (JS.BigInt (cacheTipNumber s)); reflexivity.
Qed.

Lemma newest_snoc (ests : list SyncState) (s : SyncState) :
  Spec.newest (ests ++ [s]) = Some s.
Proof. unfold Spec.newest. rewrite rev_app_distr. reflexivity. Qed.

(** X5.  With the remote calls answering, the listener of
    [cache-tip-block-updated] stores the sample as the newest one of the
    window and keeps the cache untouched.  When [cacheTipNumber] parses to
    the integer [n] it then hands [n] to the synced-block cursor and
    publishes that very sample, in this order; when [cacheTipNumber] is not
    numeric it hands over nothing. *)
Theorem listener_stores_then_publishes
    (env0 env1 : Env) (states : States.t) (rpc : Rpc) (c : Controller)
    (hdr : Header.t) (info : JS.number * JS.number) :
  tipHeader rpc = Some hdr ->
  fetchBestKnownBlockInfo rpc = Some info ->
  exists s,
    Spec.newest
      (estimates (fst (onCacheTipBlockUpdated env0 states rpc env1 c)))
    = Some s
    /\ cachedEstimation (fst (onCacheTipBlockUpdated env0 states rpc env1 c))
       = cachedEstimation c
    /\ (forall n,
          JS.parseInt (States.cacheTipNumber states) = JS.of_Z n ->
          snd (onCacheTipBlockUpdated env0 states rpc env1 c)
          = [SetNextBlock n; Publish s])
    /\ (JS.parseInt (States.cacheTipNumber states) = JS.NaN ->
        snd (onCacheTipBlockUpdated env0 states rpc env1 c) = []).
Proof.
  intros Htip Hinfo.
  destruct (estimate_total env0 env1 states rpc (estimates c) hdr info
              Htip Hinfo)
    as (s & kept & Hrun & _ & _ & _ & _ & Hcache & _).
  unfold Spec.cacheTip in Hcache.
  exists s. unfold onCacheTipBlockUpdated. rewrite Hrun, Hcache.
  split; [|split; [|split]].
  - destruct (JS.BigInt _); apply newest_snoc.
  - destruct (JS.BigInt _); reflexivity.
  - intros n ->. rewrite BigInt_of_Z. reflexivity.
  - intros ->. reflexivity.
Qed.

Lemma listener_stores_then_publishes_witness :
  exists s,
    snd (onCacheTipBlockUpdated (Spec.at_ 10000 "n") (Spec.payload "160" "95")
           (Spec.answers 1005 9000) (Spec.at_ 10000 "n") initial)
    = [SetNextBlock 95; Publish s]
    /\ snd (onCacheTipBlockUpdated (Spec.at_ 10000 "n")
              (Spec.payload "160" "n/a")
              (Spec.answers 1005 9000) (Spec.at_ 10000 "n") initial)
       = [].
Proof.
  destruct
    (listener_stores_then_publishes
       (Spec.at_ 10000 "n") (Spec.at_ 10000 "n") (Spec.payload "160" "95")
       (Spec.answers 1005 9000) initial
       {| Header.number := JS.of_Z 1005; Header.timestamp := JS.of_Z 9000 |}
       (JS.of_Z 1005, JS.of_Z 9000) eq_refl eq_refl)
    as (s & _ & _ & Hpublish & _).
  destruct
    (listener_stores_then_publishes
       (Spec.at_ 10000 "n") (Spec.at_ 10000 "n") (Spec.payload "160" "n/a")
       (Spec.answers 1005 9000) initial
       {| Header.number := JS.of_Z 1005; Header.timestamp := JS.of_Z 9000 |}
       (JS.of_Z 1005, JS.of_Z 9000) eq_refl eq_refl)
    as (_ & _ & _ & _ & Hsilent).
  exists s. split; [apply (Hpublish 95); reflexivity | apply Hsilent].
  reflexivity.
Defined.

(** X6.  After a tick whose remote calls answered, [getSyncStatus] answers
    the status of that tick's sample, and this is never [SyncNotStart]:
    only a reset, or a window that was never written, reads as not
    started. *)
Theorem sync_status_after_tick
    (env0 env1 : Env) (states : States.t) (rpc : Rpc) (c : Controller)
    (hdr : Header.t) (info : JS.number * JS.number) :
  tipHeader rpc = Some hdr ->
  fetchBestKnownBlockInfo rpc = Some info ->
  exists s ests',
    estimate_ env0 states rpc env1 (estimates c) = Some (s, ests')
    /\ getSyncStatus (fst (onCacheTipBlockUpdated env0 states rpc env1 c))
       = Some (status s)
    /\ status s <> SyncNotStart.
Proof.
  intros Htip Hinfo. destruct info as [best bestTs].
  destruct (tick_sample_shape env0 env1 states rpc (estimates c)
              hdr best bestTs Htip Hinfo)
    as (s & Hrun & _ & _ & _ & _ & _ & _ & _ & Hstarted & _).
  exists s, (snd (updateEstimates env1 (estimates c) s)).
  split; [exact Hrun | split; [|exact Hstarted]].
  rewrite getSyncStatus_newest, onCacheTipBlockUpdated_estimates, Hrun.
  unfold updateEstimates. cbn [snd]. rewrite newest_snoc. reflexivity.
Qed.

Lemma sync_status_after_tick_witness :
  exists s ests',
    estimate_ (Spec.at_ 10000 "n") (Spec.payload "160" "95")
      (Spec.answers 1005 9000) (Spec.at_ 10000 "n") (estimates initial)
    = Some (s, ests')
    /\ getSyncStatus
         (fst (onCacheTipBlockUpdated (Spec.at_ 10000 "n")
                 (Spec.payload "160" "95") (Spec.answers 1005 9000)
                 (Spec.at_ 10000 "n") initial))
       = Some (status s)
    /\ status s <> SyncNotStart.
Proof.
  apply (sync_status_after_tick
           (Spec.at_ 10000 "n") (Spec.at_ 10000 "n") (Spec.payload "160" "95")
           (Spec.answers 1005 9000) initial
           {| Header.number := JS.of_Z 1005; Header.timestamp := JS.of_Z 9000 |}
           (JS.of_Z 1005, JS.of_Z 9000) eq_refl eq_refl).
Defined.

(* ================================================================= *)
(** ** What every reachable window satisfies *)

Lemma run_snoc (events : list Event) (e : Event) :
  run (events ++ [e]) = handle (run events) e.
Proof. unfold run. rewrite fold_left_app. reflexivity. Qed.

(** A handled event leaves old samples or adds one that a tick or a reset
    built. *)
Lemma handle_estimates (c : Controller) (e : Event) (x : SyncState) :
  In x (estimates (handle c e)) ->
  In x (estimates c)
  \/ (exists url, x = bootstrap url)
  \/ (exists env0 states rpc env1 ests',
        estimate_ env0 states rpc env1 (estimates c) = Some (x, ests')).
Proof.
  destruct e as [env0 states rpc env1 | env]; cbn [handle].
  - rewrite onCacheTipBlockUpdated_estimates.
    destruct (estimate_ env0 states rpc env1 (estimates c))
      as [[s ests']|] eqn:Hrun; [|left; assumption].
    intros Hin.
    assert (Hshape : ests' = snd (updateEstimates env1 (estimates c) s)).
    { unfold estimate_ in Hrun.
      destruct (tipHeader rpc); [|discriminate].
      destruct (fetchBestKnownBlockInfo rpc) as [[best bestTs]|];
        [|discriminate].
      cbv zeta in Hrun. unfold updateEstimates in *.
      injection Hrun as <- <-. reflexivity. }
    destruct (updateEstimates_kept env1 (estimates c) s)
      as (kept & Heq & _ & Hkept).
    rewrite Heq in Hshape. cbn [snd] in Hshape. subst ests'.
    apply in_app_or in Hin. destruct Hin as [Hin | [<- | []]].
    + left. apply Hkept in Hin. exact (proj1 Hin).
    + right. right. exists env0, states, rpc, env1, (kept ++ [s]).
      exact Hrun.
  - intros [<- | []]. right. left. eexists. reflexivity.
Qed.

(** X7.  Whatever events were handled, every sample of the window is well
    formed: [cacheRate] is unset, [indexRate] and [estimate] are set
    together, only a sample with status [Syncing] carries them, and a sample
    with status [SyncNotStart] is the zeroed sample of a reset. *)
Theorem reachable_samples_well_formed (events : list Event) :
  Forall
    (fun s =>
       cacheRate s = None
       /\ (indexRate s = None <-> estimate s = None)
       /\ (status s <> Syncing -> indexRate s = None /\ estimate s = None)
       /\ (status s = SyncNotStart -> s = bootstrap (nodeUrl s)))
    (estimates (run events)).
Proof.
  induction events as [|e events IH] using rev_ind; [constructor|].
  rewrite run_snoc. apply Forall_forall. intros x Hin.
  apply handle_estimates in Hin.
  destruct Hin as [Hold | [[url ->] | (env0 & states & rpc & env1 & ests' & Hrun)]].
  - rewrite Forall_forall in IH. exact (IH x Hold).
  - cbn. repeat split; intros; try reflexivity; discriminate.
  - destruct (tipHeader rpc) as [hdr|] eqn:Htip;
      [|unfold estimate_ in Hrun; rewrite Htip in Hrun; discriminate].
    destruct (fetchBestKnownBlockInfo rpc) as [[best bestTs]|] eqn:Hinfo;
      [|unfold estimate_ in Hrun; rewrite Htip, Hinfo in Hrun; discriminate].
    destruct (tick_sample_shape env0 env1 states rpc (estimates (run events))
                hdr best bestTs Htip Hinfo)
      as (s & Hrun' & _ & _ & _ & _ & _ & _ & Hcr & Hstarted & Hboth & Hsync & _).
    rewrite Hrun in Hrun'. unfold updateEstimates in Hrun'.
    injection Hrun' as -> _.
    repeat split; try assumption; try apply Hboth; try apply Hsync;
      try assumption.
    intros Hns. contradiction.
Qed.

(** X8.  The window is empty only before the first event that gets
    through: once a reset or a tick whose remote calls answered has been
    handled, no later event empties it, so [getSyncStatus] reads a sample. *)
Theorem window_never_emptied (c : Controller) (events : list Event) :
  estimates c <> [] ->
  estimates (fold_left handle events c) <> [].
Proof.
  revert c. induction events as [|e events IH]; intros c Hc; [exact Hc|].
  cbn [fold_left]. apply IH.
  destruct e as [env0 states rpc env1 | env]; cbn [handle].
  - rewrite onCacheTipBlockUpdated_estimates.
    destruct (estimate_ env0 states rpc env1 (estimates c))
      as [[s ests']|] eqn:Hrun; [|exact Hc].
    unfold estimate_ in Hrun.
    destruct (tipHeader rpc); [|discriminate].
    destruct (fetchBestKnownBlockInfo rpc) as [[best bestTs]|];
      [|discriminate].
    cbv zeta in Hrun. unfold updateEstimates in Hrun.
    injection Hrun as _ <-. intros Hnil.
    apply app_eq_nil in Hnil. destruct Hnil as [_ Hnil]. discriminate.
  - discriminate.
Qed.

Lemma window_never_emptied_witness :
  estimates
    (fold_left handle
       [CacheTipBlockUpdated (Spec.at_ 200000 "n") (Spec.payload "160" "95")
          (Spec.answers 1105 9000) (Spec.at_ 200000 "n")]
       (fst (onCurrentNetworkIDChanged (Spec.at_ 100000 "n") initial)))
  <> [].
Proof.
  apply (window_never_emptied
           (fst (onCurrentNetworkIDChanged (Spec.at_ 100000 "n") initial))).
  discriminate.
Defined.

(* ================================================================= *)
(** ** More on the estimation cache *)

(** A cache that already holds the newest sample is a fixed point. *)
Lemma cached_estimation_at_newest (env : Env) (ests : list SyncState) :
  getCachedEstimation env
    {| estimates := ests; cachedEstimation := Spec.newest ests |}
  = (Spec.newest ests,
     {| estimates := ests; cachedEstimation := Spec.newest ests |}).
Proof.
  unfold getCachedEstimation. cbn [estimates cachedEstimation].
  rewrite nth_error_last.
  destruct (Spec.newest ests) as [latest|]; [|reflexivity].
  destruct (_ && _); [reflexivity|].
  destruct (_ || _); reflexivity.
Qed.

(** A poll either installs the newest sample or keeps everything. *)
Lemma poll_cases (env : Env) (c : Controller) :
  getCachedEstimation env c
  = (Spec.newest (estimates c),
     {| estimates := estimates c;
        cachedEstimation := Spec.newest (estimates c) |})
  \/ (exists cached,
        cachedEstimation c = Some cached
        /\ getCachedEstimation env c = (Some cached, c)).
Proof.
  destruct c as [ests cache].
  unfold getCachedEstimation. cbn [estimates cachedEstimation].
  rewrite nth_error_last.
  destruct cache as [cached|]; [|left; reflexivity].
  destruct (_ && _); [left; reflexivity|].
  destruct (_ || _); [left; reflexivity|].
  right. exists cached. split; reflexivity.
Qed.

(** X9.  A poll of the cached estimation never touches the window; what it
    returns is what it leaves in the cache, and that is either the value
    cached before or the newest sample of the window.  Polling again at the
    same moment returns the same value and changes nothing more. *)
Theorem cached_estimation_poll (env : Env) (c : Controller) :
  estimates (snd (getCachedEstimation env c)) = estimates c
  /\ cachedEstimation (snd (getCachedEstimation env c))
     = fst (getCachedEstimation env c)
  /\ (fst (getCachedEstimation env c) = cachedEstimation c
      \/ fst (getCachedEstimation env c) = Spec.newest (estimates c))
  /\ getCachedEstimation env (snd (getCachedEstimation env c))
     = getCachedEstimation env c.
Proof.
  destruct (poll_cases env c) as [E | (cached & Hcached & E)]; rewrite !E;
    cbn [fst snd estimates cachedEstimation].
  - repeat split; [right; reflexivity|].
    apply cached_estimation_at_newest.
  - repeat split; [exact Hcached | left; symmetry; exact Hcached | exact E].
Qed.

(** X10.  The reset on a change of node does not clear the cache.  The next
    poll under the new node returns the zeroed sample when the cache is
    empty, holds a sample of another node, or holds one that is at least
    60000 ms old; but a cached sample of the same node younger than that is
    still what the poll returns. *)
Theorem poll_after_reset
    (envR env : Env) (c : Controller) :
  currentNodeUrl env = currentNodeUrl envR ->
  cachedEstimation (fst (onCurrentNetworkIDChanged envR c))
  = cachedEstimation c
  /\ (cachedEstimation c = None ->
      fst (getCachedEstimation env (fst (onCurrentNetworkIDChanged envR c)))
      = Some (bootstrap (currentNodeUrl envR)))
  /\ (forall cached,
        cachedEstimation c = Some cached ->
        nodeUrl cached <> currentNodeUrl envR
        \/ 60000 <= now env - timestamp cached ->
        fst (getCachedEstimation env (fst (onCurrentNetworkIDChanged envR c)))
        = Some (bootstrap (currentNodeUrl envR)))
  /\ (forall cached,
        cachedEstimation c = Some cached ->
        nodeUrl cached = currentNodeUrl envR ->
        now env - timestamp cached < 60000 ->
        fst (getCachedEstimation env (fst (onCurrentNetworkIDChanged envR c)))
        = Some cached).
Proof.
  intros Hnode.
  cbn [onCurrentNetworkIDChanged fst cachedEstimation].
  split; [reflexivity|].
  unfold getCachedEstimation. cbn [estimates cachedEstimation length].
  rewrite Hnode. unfold sampleTime.
  split; [|split].
  - intros ->. reflexivity.
  - intros cached -> Hstale. cbn.
    replace (negb _ || _) with true; [reflexivity|].
    symmetry. apply orb_true_iff. destruct Hstale as [Hother | Hage].
    + left. apply negb_true_iff, String.eqb_neq. exact Hother.
    + right. apply Z.leb_le. lia.
  - intros cached -> Hsame Hage. cbn.
    replace (negb _ || _) with false; [reflexivity|].
    symmetry. apply orb_false_iff. split.
    + apply negb_false_iff, String.eqb_eq. exact Hsame.
    + apply Z.leb_gt. lia.
Qed.

Lemma poll_after_reset_witness :
  fst (getCachedEstimation (Spec.at_ 5000 "m")
         (fst (onCurrentNetworkIDChanged (Spec.at_ 4000 "m")
                 {| estimates := [Spec.sample "n" 1000 10 7 100];
                    cachedEstimation := Some (Spec.sample "n" 1000 10 7 100) |})))
  = Some (bootstrap "m")
  /\ fst (getCachedEstimation (Spec.at_ 5000 "n")
            (fst (onCurrentNetworkIDChanged (Spec.at_ 4000 "n")
                    {| estimates := [Spec.sample "n" 1000 10 7 100];
                       cachedEstimation :=
                         Some (Spec.sample "n" 1000 10 7 100) |})))
     = Some (Spec.sample "n" 1000 10 7 100)
  /\ fst (getCachedEstimation (Spec.at_ 5000 "m")
            (fst (onCurrentNetworkIDChanged (Spec.at_ 4000 "m") initial)))
     = Some (bootstrap "m").
Proof.
  split; [|split].
  - apply (proj1 (proj2 (proj2
             (poll_after_reset (Spec.at_ 4000 "m") (Spec.at_ 5000 "m")
                {| estimates := [Spec.sample "n" 1000 10 7 100];
                   cachedEstimation := Some (Spec.sample "n" 1000 10 7 100) |}
                eq_refl)))
             (Spec.sample "n" 1000 10 7 100) eq_refl).
    left. discriminate.
  - apply (proj2 (proj2 (proj2
             (poll_after_reset (Spec.at_ 4000 "n") (Spec.at_ 5000 "n")
                {| estimates := [Spec.sample "n" 1000 10 7 100];
                   cachedEstimation := Some (Spec.sample "n" 1000 10 7 100) |}
                eq_refl)))
             (Spec.sample "n" 1000 10 7 100) eq_refl eq_refl).
    simpl. lia.
  - apply (proj1 (proj2
             (poll_after_reset (Spec.at_ 4000 "m") (Spec.at_ 5000 "m")
                initial eq_refl))).
    reflexivity.
Defined.

(* ================================================================= *)
(** ** More on the rate and the estimate *)

Lemma inject_Z_sub (a b : Z) : inject_Z (a - b) = (inject_Z a - inject_Z b)%Q.
Proof.
  unfold Z.sub, Qminus. rewrite inject_Z_plus, inject_Z_opp. reflexivity.
Qed.

Lemma Qeq_bool_pos (q : Q) : (0 < q)%Q -> Qeq_bool q 0 = false.
Proof.
  intros Hq. destruct (Qeq_bool q 0) eqn:E; [|reflexivity].
  apply Qeq_bool_iff in E. rewrite E in Hq.
  exfalso. exact (Qlt_irrefl 0 Hq).
Qed.

(** The rate between integer tips, with the baseline older than the tick. *)
Lemma rate_exact
    (env : Env) (ests : list SyncState) (first : SyncState) (i i0 t : Z) :
  Spec.oldestFresh env ests first ->
  indexerTipNumber first = JS.of_Z i0 ->
  timestamp first < t ->
  50 <= i - i0 ->
  exists q,
    calculateAvgIndexRate env ests (JS.of_Z i) t = Some (JS.Fin q)
    /\ (q <= inject_Z (i - i0))%Q
    /\ (0 < q)%Q.
Proof.
  intros Hfirst Htip0 Hel Hadv.
  rewrite (calculateAvgIndexRate_first _ _ _ _ _ Hfirst), Htip0.
  unfold JS.of_Z. cbn [JS.sub JS.lt]. rewrite <- inject_Z_sub.
  set (x := inject_Z (i - i0)). set (d := inject_Z (t - timestamp first)).
  assert (Hx : (inject_Z 50 <= x)%Q) by (unfold x; rewrite <- Zle_Qle; exact Hadv).
  assert (Hx0 : (0 < x)%Q).
  { apply Qlt_le_trans with (inject_Z 50); [reflexivity | exact Hx]. }
  assert (Hd1 : (1 <= d)%Q).
  { unfold d. change 1%Q with (inject_Z 1). rewrite <- Zle_Qle. lia. }
  assert (Hd : (0 < d)%Q).
  { apply Qlt_le_trans with 1%Q; [reflexivity | exact Hd1]. }
  replace (JS.Qlt_bool x (inject_Z 50)) with false
    by (symmetry; apply Qlt_bool_false_iff; exact Hx).
  cbn [JS.div]. rewrite (Qeq_bool_pos d Hd).
  exists (x / d)%Q. split; [reflexivity|]. split.
  - apply Qle_shift_div_r; [exact Hd|].
    rewrite <- (Qmult_1_r x) at 1.
    apply Qmult_le_l; [exact Hx0 | exact Hd1].
  - apply Qlt_shift_div_l; [exact Hd|]. rewrite Qmult_0_l. exact Hx0.
Qed.

Lemma rate_none_below
    (env : Env) (ests : list SyncState) (first : SyncState) (i i0 t : Z) :
  Spec.oldestFresh env ests first ->
  indexerTipNumber first = JS.of_Z i0 ->
  i - i0 < 50 ->
  calculateAvgIndexRate env ests (JS.of_Z i) t = None.
Proof.
  intros Hfirst Htip0 Hadv.
  rewrite (calculateAvgIndexRate_first _ _ _ _ _ Hfirst), Htip0.
  unfold JS.of_Z. cbn [JS.sub JS.lt]. rewrite <- inject_Z_sub.
  replace (JS.Qlt_bool _ _) with true; [reflexivity|].
  symmetry. apply Qlt_bool_iff. rewrite <- Zlt_Qlt. exact Hadv.
Qed.

(** X11.  Between integer tips, and with a baseline sample older than the
    tick, the index rate exists exactly when the indexer advanced by 50
    blocks or more, and it is then a finite number, strictly positive and
    not above the number of blocks advanced. *)
Theorem index_rate_between_integer_tips
    (env : Env) (ests : list SyncState) (first : SyncState) (i i0 t : Z) :
  Spec.oldestFresh env ests first ->
  indexerTipNumber first = JS.of_Z i0 ->
  timestamp first < t ->
  (i - i0 < 50 -> calculateAvgIndexRate env ests (JS.of_Z i) t = None)
  /\ (50 <= i - i0 ->
      exists q,
        calculateAvgIndexRate env ests (JS.of_Z i) t = Some (JS.Fin q)
        /\ (q <= inject_Z (i - i0))%Q
        /\ (0 < q)%Q).
Proof.
  intros Hfirst Htip0 Hel. split.
  - apply (rate_none_below _ _ _ _ _ _ Hfirst Htip0).
  - apply (rate_exact _ _ _ _ _ _ Hfirst Htip0 Hel).
Qed.

Lemma index_rate_between_integer_tips_witness :
  exists q,
    calculateAvgIndexRate (Spec.at_ 10000 "n")
      [Spec.sample "n" 0 100 90 1000] (JS.of_Z 160) 10000 = Some (JS.Fin q)
    /\ (q <= inject_Z (160 - 100))%Q
    /\ (0 < q)%Q.
Proof.
  assert (Hfresh : Spec.fresh (Spec.at_ 10000 "n")
                     (Spec.sample "n" 0 100 90 1000)).
  { split; [reflexivity | unfold sampleTime; simpl; lia]. }
  assert (Holder : timestamp (Spec.sample "n" 0 100 90 1000) < 10000)
    by (simpl; lia).
  apply (proj2 (index_rate_between_integer_tips
                  (Spec.at_ 10000 "n") [Spec.sample "n" 0 100 90 1000]
                  (Spec.sample "n" 0 100 90 1000) 160 100 10000
                  (oldestFresh_head _ _ _ Hfresh) eq_refl Holder)).
  lia.
Defined.

(** The estimate of a tick, when set, rounds remaining blocks over rate. *)
Lemma tick_estimate_formula
    (env0 env1 : Env) (states : States.t) (rpc : Rpc) (ests : list SyncState)
    (hdr : Header.t) (best bestTs : JS.number) :
  tipHeader rpc = Some hdr ->
  fetchBestKnownBlockInfo rpc = Some (best, bestTs) ->
  exists s,
    estimate_ env0 states rpc env1 ests = Some (updateEstimates env1 ests s)
    /\ forall e,
         estimate s = Some e ->
         exists r,
           calculateAvgIndexRate env1 ests (Spec.indexerTip states) (now env0)
           = Some r
           /\ e = JS.Math_round
                    (JS.div (JS.sub best (Spec.indexerTip states)) r).
Proof.
  intros Htip Hinfo. unfold Spec.indexerTip. tick_cases.
  all: eexists; (split; [reflexivity|]); cbn; intros e He;
    try discriminate.
  injection He as <-. exists r. split; reflexivity.
Qed.

(** X12.  With integer heights, the indexer not ahead of the best-known
    block, and a baseline sample older than the tick, an estimate that a
    tick sets is a whole, non-negative number. *)
Theorem estimate_is_natural
    (env0 env1 : Env) (states : States.t) (rpc : Rpc) (ests : list SyncState)
    (hdr : Header.t) (bestTs : JS.number) (first : SyncState) (b i i0 : Z) :
  tipHeader rpc = Some hdr ->
  fetchBestKnownBlockInfo rpc = Some (JS.of_Z b, bestTs) ->
  JS.parseInt (States.indexerTipNumber states) = JS.of_Z i ->
  i <= b ->
  Spec.oldestFresh env1 ests first ->
  indexerTipNumber first = JS.of_Z i0 ->
  timestamp first < now env0 ->
  exists s ests',
    estimate_ env0 states rpc env1 ests = Some (s, ests')
    /\ forall e, estimate s = Some e -> exists z, e = JS.of_Z z /\ 0 <= z.
Proof.
  intros Htip Hinfo Hidx Hle Hfirst Htip0 Hel.
  destruct (tick_estimate_formula env0 env1 states rpc ests hdr _ _ Htip Hinfo)
    as (s & Hrun & Hformula).
  exists s, (snd (updateEstimates env1 ests s)). split; [exact Hrun|].
  intros e He. destruct (Hformula e He) as (r & Hrate & ->).
  unfold Spec.indexerTip in *. rewrite Hidx in *.
  destruct (Z_lt_le_dec (i - i0) 50) as [Hslow | Hfast].
  - rewrite (rate_none_below _ _ _ _ _ _ Hfirst Htip0 Hslow) in Hrate.
    discriminate.
  - destruct (rate_exact _ _ _ _ _ _ Hfirst Htip0 Hel Hfast)
      as (q & Hq & _ & Hpos).
    rewrite Hq in Hrate. injection Hrate as <-.
    unfold JS.of_Z at 1 2. cbn [JS.sub JS.div].
    rewrite (Qeq_bool_pos q Hpos). cbn [JS.Math_round].
    eexists. split; [reflexivity|].
    change 0 with (Qfloor 0). apply Qfloor_resp_le.
    rewrite <- inject_Z_sub.
    assert (Hrem : (0 <= inject_Z (b - i))%Q).
    { change 0%Q with (inject_Z 0). rewrite <- Zle_Qle. lia. }
    assert (Hdiv : (0 <= inject_Z (b - i) / q)%Q).
    { apply Qle_shift_div_l; [exact Hpos|]. rewrite Qmult_0_l. exact Hrem. }
    revert Hdiv. generalize (inject_Z (b - i) / q)%Q. intros y Hy. lra.
Qed.

Lemma estimate_is_natural_witness :
  exists s ests',
    estimate_ (Spec.at_ 10000 "n") (Spec.payload "160" "95")
      (Spec.answers 1005 9000) (Spec.at_ 10000 "n")
      [Spec.sample "n" 0 100 90 1000] = Some (s, ests')
    /\ forall e, estimate s = Some e -> exists z, e = JS.of_Z z /\ 0 <= z.
Proof.
  assert (Hfresh : Spec.fresh (Spec.at_ 10000 "n")
                     (Spec.sample "n" 0 100 90 1000)).
  { split; [reflexivity | unfold sampleTime; simpl; lia]. }
  assert (Holder : timestamp (Spec.sample "n" 0 100 90 1000)
                   < now (Spec.at_ 10000 "n"))
    by (simpl; lia).
  assert (Hbehind : 160 <= 1005) by lia.
  apply (estimate_is_natural
           (Spec.at_ 10000 "n") (Spec.at_ 10000 "n") (Spec.payload "160" "95")
           (Spec.answers 1005 9000) [Spec.sample "n" 0 100 90 1000]
           {| Header.number := JS.of_Z 1005; Header.timestamp := JS.of_Z 9000 |}
           (JS.of_Z 9000) (Spec.sample "n" 0 100 90 1000) 1005 160 100
           eq_refl eq_refl eq_refl Hbehind
           (oldestFresh_head _ _ _ Hfresh) eq_refl Holder).
Defined.

(* ================================================================= *)
(** ** More on the window across pushes *)

Lemma filter_filter_implied {A : Type} (p q : A -> bool) (l : list A) :
  (forall x, In x l -> q x = true -> p x = true) ->
  filter q (filter p l) = filter q l.
Proof.
  induction l as [|x l IH]; [reflexivity|]. intros Himp. simpl.
  assert (IH' : filter q (filter p l) = filter q l).
  { apply IH. intros y Hy. apply Himp. right. exact Hy. }
  destruct (q x) eqn:Hq.
  - rewrite (Himp x (or_introl eq_refl) Hq). simpl. rewrite Hq, IH'.
    reflexivity.
  - destruct (p x); simpl; [rewrite Hq|]; exact IH'.
Qed.

(** X13.  A push keeps the baseline of the rate: the oldest retained sample
    before a push is still the oldest retained sample after it, at any
    moment and under any node for which it is still retained. *)
Theorem rate_baseline_survives_push
    (env env' : Env) (ests : list SyncState) (first s : SyncState) :
  Spec.oldestFresh env ests first ->
  Spec.fresh env' first ->
  Spec.oldestFresh env' (snd (updateEstimates env ests s)) first.
Proof.
  intros (pre & post & -> & Hpre & Hfirst) Hlater.
  unfold updateEstimates. cbn [snd].
  rewrite view_skip by assumption.
  rewrite view_cons_fresh by assumption.
  cbn [filter].
  replace (now env - timestamp first <=? sampleTime) with true
    by (symmetry; apply Z.leb_le; exact (proj2 Hfirst)).
  cbn [app]. apply oldestFresh_head. exact Hlater.
Qed.

Lemma rate_baseline_survives_push_witness :
  Spec.oldestFresh (Spec.at_ 20000 "n")
    (snd (updateEstimates (Spec.at_ 10000 "n")
            [Spec.sample "n" 0 100 90 1000] (Spec.sample "n" 10000 160 95 1005)))
    (Spec.sample "n" 0 100 90 1000).
Proof.
  assert (Hfresh : Spec.fresh (Spec.at_ 10000 "n")
                     (Spec.sample "n" 0 100 90 1000)).
  { split; [reflexivity | unfold sampleTime; simpl; lia]. }
  assert (Hlater : Spec.fresh (Spec.at_ 20000 "n")
                     (Spec.sample "n" 0 100 90 1000)).
  { split; [reflexivity | unfold sampleTime; simpl; lia]. }
  apply (rate_baseline_survives_push
           (Spec.at_ 10000 "n") (Spec.at_ 20000 "n")
           [Spec.sample "n" 0 100 90 1000] (Spec.sample "n" 0 100 90 1000)
           (Spec.sample "n" 10000 160 95 1005)
           (oldestFresh_head _ _ _ Hfresh) Hlater).
Defined.

(** X14.  Pruning at push time loses nothing a later reader would see: for
    the same node and a clock that has not gone back, the view of the
    window after a push is the view of the unpruned window with the sample
    appended. *)
Theorem push_prunes_only_what_later_views_drop
    (env env' : Env) (ests : list SyncState) (s : SyncState) :
  currentNodeUrl env' = currentNodeUrl env ->
  now env <= now env' ->
  getEstimatesByCurrentNode env' (snd (updateEstimates env ests s))
  = getEstimatesByCurrentNode env' (ests ++ [s]).
Proof.
  intros Hnode Hclock.
  unfold updateEstimates. cbn [snd].
  unfold getEstimatesByCurrentNode. rewrite !filter_app. f_equal.
  rewrite filter_filter_implied.
  - apply filter_filter_implied.
    intros x _ Hx. apply andb_true_iff in Hx. destruct Hx as [Hurl Hage].
    apply andb_true_iff. rewrite <- Hnode. split; [exact Hurl|].
    apply Z.leb_le in Hage. apply Z.leb_le. lia.
  - intros x _ Hx. apply andb_true_iff in Hx. destruct Hx as [_ Hage].
    apply Z.leb_le in Hage. apply Z.leb_le. lia.
Qed.

Lemma push_prunes_only_what_later_views_drop_witness :
  getEstimatesByCurrentNode (Spec.at_ 70000 "n")
    (snd (updateEstimates (Spec.at_ 65000 "n")
            [Spec.sample "n" 0 100 90 1000; Spec.sample "n" 20000 130 95 1000]
            (Spec.sample "n" 65000 160 95 1005)))
  = getEstimatesByCurrentNode (Spec.at_ 70000 "n")
      ([Spec.sample "n" 0 100 90 1000; Spec.sample "n" 20000 130 95 1000]
       ++ [Spec.sample "n" 65000 160 95 1005]).
Proof.
  apply (push_prunes_only_what_later_views_drop
           (Spec.at_ 65000 "n") (Spec.at_ 70000 "n")).
  - reflexivity.
  - simpl. lia.
Defined.

(** X15.  A sample is stamped when its tick starts, with the node and the
    clock of that moment: a later view retains it exactly when the active
    node is the node the tick started under and at most 60000 ms have passed
    since the tick started.  A tick that outlives a change of node or a
    long remote call thus pushes a sample no view will use. *)
Theorem sample_is_stamped_at_tick_start
    (env0 env1 : Env) (states : States.t) (rpc : Rpc) (ests : list SyncState)
    (hdr : Header.t) (info : JS.number * JS.number) :
  tipHeader rpc = Some hdr ->
  fetchBestKnownBlockInfo rpc = Some info ->
  exists s kept,
    estimate_ env0 states rpc env1 ests = Some (s, kept ++ [s])
    /\ forall env2,
         Spec.fresh env2 s
         <-> currentNodeUrl env2 = currentNodeUrl env0
             /\ now env2 - now env0 <= 60000.
Proof.
  intros Htip Hinfo.
  destruct (estimate_total env0 env1 states rpc ests hdr info Htip Hinfo)
    as (s & kept & Hrun & _ & Hurl & Hts & _).
  exists s, kept. split; [exact Hrun|].
  intros env2. unfold Spec.fresh, sampleTime. rewrite Hurl, Hts.
  split; intros [H1 H2]; split; congruence.
Qed.

Lemma sample_is_stamped_at_tick_start_witness :
  exists s kept,
    estimate_ (Spec.at_ 10000 "n") (Spec.payload "160" "95")
      (Spec.answers 1005 9000) (Spec.at_ 90000 "m") [] = Some (s, kept ++ [s])
    /\ ~ Spec.fresh (Spec.at_ 90000 "m") s.
Proof.
  destruct
    (sample_is_stamped_at_tick_start
       (Spec.at_ 10000 "n") (Spec.at_ 90000 "m") (Spec.payload "160" "95")
       (Spec.answers 1005 9000) []
       {| Header.number := JS.of_Z 1005; Header.timestamp := JS.of_Z 9000 |}
       (JS.of_Z 1005, JS.of_Z 9000) eq_refl eq_refl)
    as (s & kept & Hrun & Hstamp).
  exists s, kept. split; [exact Hrun|].
  intros Hfresh. apply Hstamp in Hfresh. destruct Hfresh as [Hurl _].
  discriminate Hurl.
Defined.

(* ================================================================= *)
(** ** A best-known block that is not a number *)

Lemma sub_NaN_l (b : JS.number) : JS.sub JS.NaN b = JS.NaN.
Proof. destruct b; reflexivity. Qed.

(** X16.  Nothing checks that the best-known block number is a number.
    When it is [NaN], the stability test passes as soon as one sample is
    retained, the cache never counts as caught up, so the status stays
    [Syncing]; and an estimate, when one is set, is [NaN] itself. *)
Theorem nan_best_known_block
    (env0 env1 : Env) (states : States.t) (rpc : Rpc) (ests : list SyncState)
    (hdr : Header.t) (bestTs : JS.number) :
  tipHeader rpc = Some hdr ->
  fetchBestKnownBlockInfo rpc = Some (JS.NaN, bestTs) ->
  (forall first,
      Spec.oldestFresh env1 ests first ->
      foundBestKnownBlockNumber env1 ests JS.NaN = true)
  /\ exists s ests',
       estimate_ env0 states rpc env1 ests = Some (s, ests')
       /\ status s = Syncing
       /\ forall e, estimate s = Some e -> e = JS.NaN.
Proof.
  intros Htip Hinfo. split.
  - intros first Hfirst. unfold foundBestKnownBlockNumber.
    rewrite (view_head_oldest _ _ _ Hfirst), sub_NaN_l. reflexivity.
  - unfold estimate_. rewrite Htip, Hinfo. cbv zeta.
    rewrite !sub_NaN_l. cbn [JS.lt negb andb].
    destruct (foundBestKnownBlockNumber env1 ests JS.NaN);
      [destruct (calculateAvgIndexRate env1 ests _ _) as [r|];
       [destruct (JS.truthy r)|]|];
      eexists; eexists; (split; [reflexivity|]); cbn;
      (split; [reflexivity|]); intros e He; try discriminate.
    injection He as <-. destruct r; reflexivity.
Qed.

Lemma nan_best_known_block_witness :
  exists s ests',
    estimate_ (Spec.at_ 10000 "n") (Spec.payload "160" "95")
      {| tipHeader :=
           Some {| Header.number := JS.NaN; Header.timestamp := JS.of_Z 9000 |};
         syncState := Some (JS.NaN, JS.of_Z 9000);
         fallbackTipHeader := None |}
      (Spec.at_ 10000 "n") [Spec.sample "n" 0 100 90 1000] = Some (s, ests')
    /\ status s = Syncing
    /\ forall e, estimate s = Some e -> e = JS.NaN.
Proof.
  apply (proj2 (nan_best_known_block
                  (Spec.at_ 10000 "n") (Spec.at_ 10000 "n")
                  (Spec.payload "160" "95")
                  {| tipHeader :=
                       Some {| Header.number := JS.NaN;
                               Header.timestamp := JS.of_Z 9000 |};
                     syncState := Some (JS.NaN, JS.of_Z 9000);
                     fallbackTipHeader := None |}
                  [Spec.sample "n" 0 100 90 1000]
                  {| Header.number := JS.NaN;
                     Header.timestamp := JS.of_Z 9000 |}
                  (JS.of_Z 9000) eq_refl eq_refl)).
Defined.
